(** * echo-views: a shallow embedding of the view renderer

    The development follows [templates.go] of wolfeidau/echo-views (the
    version that is decoupled from echo through the [Context] interface and
    logs through the [Logger] interface).

    - The registry [templates : map[string]*View] is a finite map from
      strings to locations; the [View] structs live in a heap, so that the
      in-place assignment [tmpl.template, err = ...] of [compileTemplate] is
      seen through every alias of the pointer.
    - The Go standard library ([path.Base], [fs.Glob], [html/template]) and
      the host framework are collaborators.  [path.Base] is written out; the
      file system, the glob lookup and the template engine are the fields
      of the class [Host], the response writer those of the record
      [Context].
    - Calls on the logger and on the response API are appended to a trace.
    - A nil-pointer dereference is the outcome [Panic]. *)

From Stdlib Require Import Ascii String ZArith List.
From stdpp Require Import gmap strings list fin_maps.

Open Scope string_scope.
Open Scope Z_scope.

(** ** Errors *)

(** The [error] values the package builds with [fmt.Errorf], and the ones it
    receives from its collaborators. *)
Inductive error : Type :=
  | TemplateNotFound (name : string)        (* "template not found: %s" *)
  | PatternMatchesNoFiles (pattern : string) (* "template: pattern matches no files: %#q" *)
  | Wrapped (msg : string) (cause : error)  (* fmt.Errorf(msg + ": %w", cause) *)
  | External (what : string).               (* produced outside the package *)

Inductive result (A : Type) : Type :=
  | Ok (a : A)
  | Err (e : error).
Arguments Ok {A} a.
Arguments Err {A} e.

(** [errors.Unwrap] iterated: the innermost cause of an error chain. *)
Fixpoint rootCause (e : error) : error :=
  match e with
  | Wrapped _ c => rootCause c
  | _ => e
  end.

(** ** [path.Base] of the Go standard library *)

Definition is_slash (c : ascii) : bool := Ascii.eqb c "/".

Fixpoint dropWhile {A} (f : A -> bool) (l : list A) : list A :=
  match l with
  | [] => []
  | x :: l' => if f x then dropWhile f l' else l
  end.

Fixpoint takeWhile {A} (f : A -> bool) (l : list A) : list A :=
  match l with
  | [] => []
  | x :: l' => if f x then x :: takeWhile f l' else []
  end.

(** [Base] returns the last element of [path]: trailing slashes are removed
    before the last element is extracted, the empty path gives ".", and a
    path of slashes only gives "/". The work is done on the reversed path. *)
Definition lastElementRev (path : list ascii) : list ascii :=
  takeWhile (fun c => negb (is_slash c)) (dropWhile is_slash (rev path)).

Definition Base (path : string) : string :=
  match path with
  | EmptyString => "."
  | _ =>
      match lastElementRev (list_ascii_of_string path) with
      | [] => "/"
      | e => string_of_list_ascii (rev e)
      end
  end.

(** ** Collaborators *)

(** The file collection ([fs.FS] with [fs.Glob]) and the template engine
    ([html/template]).  [ParseFS funcs name fsys patterns] stands for
    [template.New(name).Funcs(funcs).ParseFS(fsys, patterns...)], which
    returns a nil template together with every error.
    [ExecuteTemplate t name data] gives the bytes the engine writes to the
    writer and the error it returns; the bytes may be non-empty when the
    error is set. *)
Class Host : Type := {
  FS : Type;
  FuncMap : Type;
  Template : Type;
  Data : Type;
  Glob : FS -> string -> result (list string);
  ParseFS : FuncMap -> string -> FS -> list string -> result Template;
  ExecuteTemplate : Template -> string -> Data -> string * option error;
}.

(** The [Context] interface of the package.  [Request] only feeds the
    logger; the two response methods are modelled by the error they return,
    the write itself goes to the trace. *)
Record Context : Type := {
  HTMLBlob : Z -> string -> option error;
  NoContent : Z -> option error;
}.

Definition StatusInternalServerError : Z := 500.

(** Calls observed on the [Logger] and on the [Context]. *)
Inductive Event : Type :=
  | DebugCtx (msg : string)
  | ErrorCtx (msg : string) (err : error)
  | Debug (msg : string)
  | WriteNoContent (code : Z)
  | WriteHTMLBlob (code : Z) (b : string).

(** What a call produces: a value, or a panic. *)
Inductive outcome (A : Type) : Type :=
  | Val (a : A)
  | Panic.
Arguments Val {A} a.
Arguments Panic {A}.

(** ** Data model *)

Definition loc := nat.

Section Renderer.
Context `{H : Host}.

(** [View] stores the meta data for each view template. *)
Record View : Type := mkView {
  layout : string;
  name : string;
  includes : string;
  template : option Template;
}.

(** [ViewRenderer] (fields [fsys], [autoReload], [templates],
    [templateFuncs]), the heap of [View] structs and the trace. *)
Record State : Type := mkState {
  fsys : FS;
  autoReload : bool;
  templates : gmap string loc;
  templateFuncs : FuncMap;
  heap : gmap loc View;
  trace : list Event;
}.

Definition setFsys (f : FS) (s : State) : State :=
  mkState f (autoReload s) (templates s) (templateFuncs s) (heap s) (trace s).
Definition setAutoReload (b : bool) (s : State) : State :=
  mkState (fsys s) b (templates s) (templateFuncs s) (heap s) (trace s).
Definition setTemplates (m : gmap string loc) (s : State) : State :=
  mkState (fsys s) (autoReload s) m (templateFuncs s) (heap s) (trace s).
Definition setFuncs (f : FuncMap) (s : State) : State :=
  mkState (fsys s) (autoReload s) (templates s) f (heap s) (trace s).
Definition setHeap (h : gmap loc View) (s : State) : State :=
  mkState (fsys s) (autoReload s) (templates s) (templateFuncs s) h (trace s).
Definition emit (e : Event) (s : State) : State :=
  mkState (fsys s) (autoReload s) (templates s) (templateFuncs s) (heap s)
          (trace s ++ [e])%list.

Definition setTemplate (t : option Template) (v : View) : View :=
  mkView (layout v) (name v) (includes v) t.

(** ** A state monad with panics *)

Definition M (A : Type) : Type := State -> outcome A * State.

Definition ret {A} (a : A) : M A := fun s => (Val a, s).

Definition bind {A B} (m : M A) (k : A -> M B) : M B :=
  fun s =>
    match m s with
    | (Val a, s') => k a s'
    | (Panic, s') => (Panic, s')
    end.

Definition gets {A} (f : State -> A) : M A := fun s => (Val (f s), s).
Definition modify (f : State -> State) : M unit := fun s => (Val tt, f s).
Definition panic {A} : M A := fun s => (Panic, s).

Notation "x <- m ;; k" := (bind m (fun x => k))
  (at level 100, m at next level, right associativity).
Notation "m ;;; k" := (bind m (fun _ => k))
  (at level 100, right associativity).

(** [new(View)]: a fresh location holding [v]. *)
Definition alloc (v : View) : M loc :=
  fun s =>
    let p := fresh (dom (heap s)) in
    (Val p, setHeap (<[p := v]> (heap s)) s).

(** [*p]; a pointer outside the heap cannot be built in Go and panics here. *)
Definition deref (p : loc) : M View :=
  fun s =>
    match heap s !! p with
    | Some v => (Val v, s)
    | None => (Panic, s)
    end.

Definition store (p : loc) (v : View) : M unit :=
  modify (fun s => setHeap (<[p := v]> (heap s)) s).

Definition log (e : Event) : M unit := modify (emit e).

(** ** Options and [New] *)

Definition Option := State -> State.

Definition WithFS (f : FS) : Option := setFsys f.
Definition WithAutoReload (enabled : bool) : Option := setAutoReload enabled.
Definition WithFuncs (funcs : FuncMap) : Option := setFuncs funcs.

(** [New]: empty registry, reload disabled, then the options in order.  The
    zero values of [fsys] and [templateFuncs] are arguments here: [fs0]
    stands for the file collection of a renderer made without [WithFS],
    which in the code is nil and makes globbing and parsing panic.  That
    panic is not modelled, so statements about registration are made for
    renderers whose options set the file collection (see [built]). *)
Definition New (fs0 : FS) (funcs0 : FuncMap) (opts : list Option) : State :=
  foldl (fun r opt => opt r) (mkState fs0 false ∅ funcs0 ∅ []) opts.

(** ** [readFileNames] *)

Fixpoint readFileNamesFrom (fs : FS) (filenames : list string)
    (patterns : list string) : result (list string) :=
  match patterns with
  | [] => Ok filenames
  | pattern :: rest =>
      match Glob fs pattern with
      | Err err => Err (Wrapped "failed to list using file pattern" err)
      | Ok list =>
          if (length list =? 0)%nat
          then Err (PatternMatchesNoFiles pattern)
          else readFileNamesFrom fs (filenames ++ list)%list rest
      end
  end.

Definition readFileNames (fs : FS) (patterns : list string) : result (list string) :=
  readFileNamesFrom fs [] patterns.

(** ** [compileTemplate] *)

(** The pattern list built by [compileTemplate]. *)
Definition patternsOf (tmpl : View) : list string :=
  let patterns : list string := [] in
  let patterns := if bool_decide (layout tmpl ≠ "")
                  then (patterns ++ [layout tmpl])%list else patterns in
  let patterns := if bool_decide (includes tmpl ≠ "")
                  then (patterns ++ [includes tmpl])%list else patterns in
  (patterns ++ [name tmpl])%list.

Definition compileTemplate (p : loc) : M (option error) :=
  tmpl <- deref p ;;
  let templateName := Base (name tmpl) in
  log (Debug "register template") ;;;
  fs <- gets fsys ;;
  funcs <- gets templateFuncs ;;
  match ParseFS funcs templateName fs (patternsOf tmpl) with
  | Err err =>
      store p (setTemplate None tmpl) ;;;
      ret (Some (Wrapped ("failed to parse template " +:+ name tmpl) err))
  | Ok parsed =>
      store p (setTemplate (Some parsed) tmpl) ;;;
      modify (fun s => setTemplates (<[templateName := p]> (templates s)) s) ;;;
      ret None
  end.

(** ** [lookupTemplate] *)

Definition lookupTemplate (nm : string) : M (result loc) :=
  reg <- gets templates ;;
  match reg !! nm with
  | None => ret (Err (TemplateNotFound nm))
  | Some tmpl =>
      reload <- gets autoReload ;;
      if negb reload then ret (Ok tmpl)
      else
        err <- compileTemplate tmpl ;;
        match err with
        | Some e => ret (Err e)
        | None => ret (Ok tmpl)
        end
  end.

(** ** [Render] and [RenderToHTMLBlob] *)

(** The entry point handed to [ExecuteTemplate]. *)
Definition execNameOf (tmpl : View) : string :=
  let execName := Base (name tmpl) in
  if bool_decide (layout tmpl ≠ "") then Base (layout tmpl) else execName.

(** [Render w name data c]: [w] is what the writer holds before the call;
    the result pairs what it holds after the call with the returned error. *)
Definition Render (w : string) (nm : string) (data : Data) (c : Context)
    : M (string * option error) :=
  log (DebugCtx "Render") ;;;
  r <- lookupTemplate nm ;;
  match r with
  | Err err =>
      log (ErrorCtx "failed to load template" err) ;;;
      log (WriteNoContent StatusInternalServerError) ;;;
      ret (w, NoContent c StatusInternalServerError)
  | Ok p =>
      tmpl <- deref p ;;
      let execName := execNameOf tmpl in
      match template tmpl with
      | None => panic
      | Some t =>
          let '(out, err) := ExecuteTemplate t execName data in
          match err with
          | Some e =>
              log (ErrorCtx "failed to execute template" e) ;;;
              ret (w +:+ out, Some e)
          | None =>
              log (DebugCtx "Render complete") ;;;
              ret (w +:+ out, None)
          end
      end
  end.

Definition RenderToHTMLBlob (c : Context) (code : Z) (nm : string) (data : Data)
    : M (option error) :=
  let buf := "" in
  r <- Render buf nm data c ;;
  let '(buf, err) := r in
  match err with
  | Some e => ret (Some e)
  | None =>
      log (WriteHTMLBlob code buf) ;;;
      ret (HTMLBlob c code buf)
  end.

(** ** Registration: [Add], [AddWithLayout], [AddWithLayoutAndIncludes] *)

(** The loop shared by the three registration functions:
    [for _, f := range filenames { tpl := &View{...}; err = t.compileTemplate(tpl); ... }]. *)
Fixpoint registerEach (lay inc : string) (filenames : list string) : M (option error) :=
  match filenames with
  | [] => ret None
  | f :: rest =>
      tpl <- alloc (mkView lay f inc None) ;;
      err <- compileTemplate tpl ;;
      match err with
      | Some e => ret (Some e)
      | None => registerEach lay inc rest
      end
  end.

Definition AddWithLayout (lay : string) (patterns : list string) : M (option error) :=
  fs <- gets fsys ;;
  match readFileNames fs patterns with
  | Err err => ret (Some (Wrapped "failed to list using file pattern" err))
  | Ok filenames => registerEach lay "" filenames
  end.

Definition AddWithLayoutAndIncludes (lay inc : string) (patterns : list string)
    : M (option error) :=
  fs <- gets fsys ;;
  match readFileNames fs patterns with
  | Err err => ret (Some (Wrapped "failed to list using file pattern" err))
  | Ok filenames => registerEach lay inc filenames
  end.

Definition Add (patterns : list string) : M (option error) :=
  fs <- gets fsys ;;
  match readFileNames fs patterns with
  | Err err => ret (Some (Wrapped "failed to read file names using file pattern" err))
  | Ok filenames => registerEach "" "" filenames
  end.

(** ** Vocabulary of the statements *)

(** [s] after the calls [evs] on the logger and the response API. *)
Definition logged (evs : list Event) (s : State) : State :=
  mkState (fsys s) (autoReload s) (templates s) (templateFuncs s) (heap s)
          (trace s ++ evs)%list.

(** The state [compileTemplate p] leaves behind when [*p] was [v]: the
    artifact slot of [*p] holds [t], and [reg] is the registry. *)
Definition compiledState (p : loc) (v : View) (t : option Template)
    (reg : gmap string loc) (s : State) : State :=
  mkState (fsys s) (autoReload s) reg (templateFuncs s)
          (<[p := setTemplate t v]> (heap s))
          (trace s ++ [Debug "register template"])%list.

(** The error [compileTemplate] builds around a parse error. *)
Definition parseError (v : View) (err : error) : error :=
  Wrapped ("failed to parse template " +:+ name v) err.

(** The view registered under [nm], if any, is fully compiled. *)
Definition usableOrAbsent (s : State) (nm : string) : Prop :=
  match templates s !! nm with
  | None => True
  | Some p => exists v t, heap s !! p = Some v /\ template v = Some t
  end.

(** The registry after the views at [ps] were registered for [files], in
    order: each one is stored under the base name of its file. *)
Definition registryAfter (reg : gmap string loc) (files : list string)
    (ps : list loc) : gmap string loc :=
  foldl (fun m fp => <[Base (fst fp) := snd fp]> m) reg (zip files ps).

(** [s'] is [s] after one view per file of [files] was created, with layout
    [lay] and includes [inc], at the fresh and distinct locations [ps],
    compiled, and stored in the registry in the order of [files].  The views
    that existed in [s] are untouched. *)
Definition registeredViews (lay inc : string) (files : list string)
    (ps : list loc) (s s' : State) : Prop :=
  length ps = length files /\
  NoDup ps /\
  (forall p, p ∈ ps -> heap s !! p = None) /\
  (forall q, q ∉ ps -> heap s' !! q = heap s !! q) /\
  Forall2 (fun f p => exists t, heap s' !! p = Some (mkView lay f inc (Some t)))
          files ps /\
  templates s' = registryAfter (templates s) files ps.

(** [f] is at position [i] of [files] and no later file has its base name. *)
Definition lastWithBase (files : list string) (i : nat) (f : string) : Prop :=
  files !! i = Some f /\
  forall j g, (i < j)%nat -> files !! j = Some g -> Base g <> Base f.

(** Every registry entry points to a live view and is keyed by the base
    name of that view's page file. *)
Definition wellKeyed (s : State) : Prop :=
  forall k p, templates s !! k = Some p ->
    exists v, heap s !! p = Some v /\ k = Base (name v).

(** Every registered view holds an artifact. *)
Definition allCompiled (s : State) : Prop :=
  forall k p, templates s !! k = Some p ->
    exists v t, heap s !! p = Some v /\ template v = Some t.

(** The invariant of a renderer: the registry is well keyed, and without
    reload every registered view is compiled. *)
Definition sound (s : State) : Prop :=
  wellKeyed s /\ (autoReload s = false -> allCompiled s).

(** The options the package exports ([WithLogger] only sets the sink of the
    log calls, which the trace records in any case). *)
Definition packageOption (o : Option) : Prop :=
  (exists f, o = WithFS f) \/ (exists b, o = WithAutoReload b) \/
  (exists g, o = WithFuncs g).

(** The view the registration loop creates for [f] before it compiles it. *)
Definition newView (lay inc f : string) : View := mkView lay f inc None.

(** [files] is what [patterns] match on the file collection of [s]: every
    pattern is well formed and matches at least one file, and [files] lists
    the matches pattern by pattern, so a file that several patterns match
    occurs once for each of them. *)
Definition matchesOf (s : State) (patterns files : list string) : Prop :=
  exists ls, Forall2 (fun q m => Glob (fsys s) q = Ok m /\ m <> []) patterns ls /\
             files = concat ls.

(** [t] is the artifact the engine builds for the page [f] with layout [lay]
    and includes [inc] from the file collection and function map of [s]. *)
Definition parsesAs (lay inc : string) (s : State) (f : string) (t : Template)
    : Prop :=
  ParseFS (templateFuncs s) (Base f) (fsys s)
    ((if bool_decide (lay = "") then [] else [lay]) ++
     (if bool_decide (inc = "") then [] else [inc]) ++ [f])%list = Ok t.

(** The outcome of a registration of [files]: one new view per element of
    [files], at the location of [ps] with the same position, holding the
    artifact parsed for that element; and a registry that differs from the
    old one only at the base names of [files], where the key of a base name
    points to the view of the last element with that base name. *)
Definition registration (lay inc : string) (files : list string) (ps : list loc)
    (s s' : State) : Prop :=
  registeredViews lay inc files ps s s' /\
  Forall2 (fun f p => exists t, parsesAs lay inc s f t /\
                                heap s' !! p = Some (mkView lay f inc (Some t)))
          files ps /\
  (forall k p,
     templates s' !! k = Some p <->
     (templates s !! k = Some p /\ forall f, f ∈ files -> Base f <> k) \/
     (exists i f, lastWithBase files i f /\ ps !! i = Some p /\ k = Base f)).


End Renderer.

(** ** A sample host: an in-memory file collection and a literal engine

    Used to run the model on concrete inputs.  Files are [(path, contents)]
    pairs in directory order.  Patterns know [*] and [?], which do not cross
    a slash; a pattern with an unclosed bracket is malformed
    ([path.ErrBadPattern]).  Bracket classes and directories as matches are
    outside this host: it is only run on patterns without a closed bracket
    and on collections of files.  A template is the list of its named bodies, one
    per parsed file under the file's base name, the last definition winning;
    a file whose whole content is an unclosed action does not parse;
    executing a name writes its body. *)
Module Sample.

Definition Files := list (string * string).

Fixpoint globMatch (pat txt : list ascii) : bool :=
  match pat with
  | [] => match txt with [] => true | _ => false end
  | c :: pat' =>
      if Ascii.eqb c "*" then
        (fix star (t : list ascii) : bool :=
           globMatch pat' t ||
           match t with
           | [] => false
           | d :: t' => negb (is_slash d) && star t'
           end) txt
      else
        match txt with
        | [] => false
        | d :: txt' =>
            (if Ascii.eqb c "?" then negb (is_slash d) else Ascii.eqb c d)
            && globMatch pat' txt'
        end
  end.

Definition badPattern (pat : list ascii) : bool :=
  match dropWhile (fun c => negb (Ascii.eqb c "[")) pat with
  | [] => false
  | _ :: rest => negb (existsb (fun c => Ascii.eqb c "]") rest)
  end.

Definition glob (fs : Files) (pattern : string) : result (list string) :=
  let pat := list_ascii_of_string pattern in
  if badPattern pat then Err (External "syntax error in pattern")
  else Ok (List.filter (fun f => globMatch pat (list_ascii_of_string f)) (map fst fs)).

Fixpoint readFile (fs : Files) (f : string) : option string :=
  match fs with
  | [] => None
  | (g, body) :: fs' => if String.eqb f g then Some body else readFile fs' f
  end.

Record Tmpl : Type := mkTmpl {
  tname : string;
  tfuncs : list string;
  tdefs : list (string * string);
}.

Fixpoint globAll (fs : Files) (patterns : list string) : result (list string) :=
  match patterns with
  | [] => Ok []
  | pattern :: rest =>
      match glob fs pattern with
      | Err e => Err e
      | Ok [] => Err (External "template: pattern matches no files")
      | Ok l =>
          match globAll fs rest with
          | Err e => Err e
          | Ok l' => Ok (l ++ l')%list
          end
      end
  end.

Fixpoint parseFiles (fs : Files) (t : Tmpl) (filenames : list string) : result Tmpl :=
  match filenames with
  | [] => Ok t
  | f :: rest =>
      match readFile fs f with
      | None => Err (External "file does not exist")
      | Some body =>
          if String.eqb body "{{" then Err (External "unclosed action")
          else parseFiles fs (mkTmpl (tname t) (tfuncs t) (tdefs t ++ [(Base f, body)])%list) rest
      end
  end.

Definition parseFS (funcs : list string) (nm : string) (fs : Files)
    (patterns : list string) : result Tmpl :=
  match globAll fs patterns with
  | Err e => Err e
  | Ok filenames => parseFiles fs (mkTmpl nm funcs []) filenames
  end.

Fixpoint lookupDef (defs : list (string * string)) (nm : string) : option string :=
  match defs with
  | [] => None
  | (n, body) :: defs' =>
      match lookupDef defs' nm with
      | Some b => Some b
      | None => if String.eqb n nm then Some body else None
      end
  end.

Definition execute (t : Tmpl) (nm : string) (_ : unit) : string * option error :=
  match lookupDef (tdefs t) nm with
  | Some body => (body, None)
  | None => ("", Some (External "template is undefined"))
  end.

#[global] Instance host : Host := {|
  FS := Files;
  FuncMap := list string;
  Template := Tmpl;
  Data := unit;
  Glob := glob;
  ParseFS := parseFS;
  ExecuteTemplate := execute;
|}.

(** A response writer that never fails, as the one of echo. *)
Definition ctx : Context := {| HTMLBlob := fun _ _ => None; NoContent := fun _ => None |}.

(** The views of the package's tests, reduced to their static text. *)
Definition views : Files :=
  [ ("fragments/data.html", "data");
    ("includes/footer.html", "footer");
    ("includes/header.html", "header");
    ("layout.html", "layout");
    ("pages/index.html", "index") ].

Definition run {A} (m : M A) (s : State) : outcome A := fst (m s).
Definition exec {A} (m : M A) (s : State) : State := snd (m s).

(** The same collection after "pages/index.html" was damaged on disk. *)
Definition brokenViews : Files :=
  [ ("fragments/data.html", "data");
    ("includes/footer.html", "footer");
    ("includes/header.html", "header");
    ("layout.html", "layout");
    ("pages/index.html", "{{") ].

(** Two pages with the same base name in different directories. *)
Definition twinViews : Files :=
  [ ("admin/index.html", "admin"); ("public/index.html", "public") ].

(** A renderer over [views] with nothing registered. *)
Definition empty : State := New views [] [].

(** A renderer in reload mode with "index.html" registered with its layout. *)
Definition reloading : State :=
  exec (AddWithLayout "layout.html" ["pages/*.html"])
       (New views [] [WithAutoReload true]).

(** A renderer without reload with "index.html" registered with its layout. *)
Definition cached : State :=
  exec (AddWithLayout "layout.html" ["pages/*.html"]) (New views [] []).

End Sample.

(** ** Sanity checks of the model on the package's own scenarios *)

Example Base_examples :
  Base "pages/index.html" = "index.html" /\ Base "layout.html" = "layout.html" /\
  Base "" = "." /\ Base "///" = "/" /\ Base "a/b/" = "b".
Proof. repeat split; reflexivity. Qed.

Example glob_examples :
  Sample.glob Sample.views "pages/*.html" = Ok ["pages/index.html"] /\
  Sample.glob Sample.views "includes/*.html" = Ok ["includes/footer.html"; "includes/header.html"] /\
  Sample.glob Sample.views "*.html" = Ok ["layout.html"] /\
  Sample.glob Sample.views "nothing/*" = Ok [] /\
  Sample.glob Sample.views "[" = Err (External "syntax error in pattern").
Proof. repeat split; reflexivity. Qed.

(** [Test_Add]: [Add("fragments/*.html")] and then rendering "data.html"
    writes exactly "data". *)
Example test_Add :
  let s0 := New Sample.views [] [] in
  Sample.run (Add ["fragments/*.html"]) s0 = Val None /\
  Sample.run (Render "" "data.html" tt Sample.ctx)
             (Sample.exec (Add ["fragments/*.html"]) s0) = Val ("data", None).
Proof. split; vm_compute; reflexivity. Qed.

(** [Test_AddWithLayout]: the layout is the entry point. *)
Example test_AddWithLayout :
  let s0 := New Sample.views [] [] in
  Sample.run (Render "" "index.html" tt Sample.ctx)
             (Sample.exec (AddWithLayout "layout.html" ["pages/*.html"]) s0)
  = Val ("layout", None).
Proof. vm_compute; reflexivity. Qed.

(** ** The monadic operations, step by step *)

Section Properties.
Context `{H : Host}.

Lemma logged_logged evs1 evs2 (s : State) :
  logged evs2 (logged evs1 s) = logged (evs1 ++ evs2) s.
Proof. unfold logged; simpl. by rewrite <- app_assoc. Qed.

Lemma emit_logged e (s : State) : emit e s = logged [e] s.
Proof. reflexivity. Qed.

(** [compileTemplate] on a live pointer, by the result of the parse. *)
Lemma compileTemplate_run (s : State) p v :
  heap s !! p = Some v ->
  compileTemplate p s =
    match ParseFS (templateFuncs s) (Base (name v)) (fsys s) (patternsOf v) with
    | Ok t => (Val None,
               compiledState p v (Some t) (<[Base (name v) := p]> (templates s)) s)
    | Err e => (Val (Some (parseError v e)), compiledState p v None (templates s) s)
    end.
Proof.
  intros Hp. unfold compileTemplate, bind, deref, log, gets, store, modify, ret.
  rewrite Hp. simpl.
  destruct (ParseFS _ _ _ _); reflexivity.
Qed.

Lemma patternsOf_eq (v : View) :
  patternsOf v =
    ((if bool_decide (layout v ≠ "") then [layout v] else []) ++
     (if bool_decide (includes v ≠ "") then [includes v] else []) ++
     [name v])%list.
Proof. unfold patternsOf. repeat case_bool_decide; reflexivity. Qed.

Lemma lookupTemplate_missing (s : State) nm :
  templates s !! nm = None ->
  lookupTemplate nm s = (Val (Err (TemplateNotFound nm)), s).
Proof.
  intros Hn. unfold lookupTemplate, bind, gets, ret. simpl. by rewrite Hn.
Qed.

Lemma lookupTemplate_cached (s : State) nm p :
  autoReload s = false ->
  templates s !! nm = Some p ->
  lookupTemplate nm s = (Val (Ok p), s).
Proof.
  intros Hr Hn. unfold lookupTemplate, bind, gets, ret. simpl.
  by rewrite Hn, Hr.
Qed.

Lemma lookupTemplate_reload (s : State) nm p v :
  autoReload s = true ->
  templates s !! nm = Some p ->
  heap s !! p = Some v ->
  lookupTemplate nm s =
    match ParseFS (templateFuncs s) (Base (name v)) (fsys s) (patternsOf v) with
    | Ok t => (Val (Ok p),
               compiledState p v (Some t) (<[Base (name v) := p]> (templates s)) s)
    | Err e => (Val (Err (parseError v e)), compiledState p v None (templates s) s)
    end.
Proof.
  intros Hr Hn Hp. unfold lookupTemplate, bind, gets, ret. simpl.
  rewrite Hn, Hr. simpl. rewrite (compileTemplate_run _ _ _ Hp).
  destruct (ParseFS _ _ _ _); reflexivity.
Qed.

(** [Render] when the lookup fails with [err] and leaves the state [s']. *)
Lemma Render_lookup_failed (s s' : State) w nm data c err :
  lookupTemplate nm (logged [DebugCtx "Render"] s) = (Val (Err err), s') ->
  Render w nm data c s =
    (Val (w, NoContent c StatusInternalServerError),
     logged [ErrorCtx "failed to load template" err;
             WriteNoContent StatusInternalServerError] s').
Proof.
  intros Hl. unfold Render, bind at 1 2. unfold log at 1, modify.
  rewrite emit_logged, Hl.
  unfold bind, log, modify, ret. by rewrite !emit_logged, logged_logged.
Qed.

(** [Render] when the lookup gives a view that holds the artifact [t]. *)
Lemma Render_lookup_found (s s' : State) w nm data c p v t :
  lookupTemplate nm (logged [DebugCtx "Render"] s) = (Val (Ok p), s') ->
  heap s' !! p = Some v ->
  template v = Some t ->
  Render w nm data c s =
    let r := ExecuteTemplate t (execNameOf v) data in
    (Val (w +:+ fst r, snd r),
     logged [match snd r with
             | Some e => ErrorCtx "failed to execute template" e
             | None => DebugCtx "Render complete"
             end] s').
Proof.
  intros Hl Hp Ht. unfold Render, bind at 1 2. unfold log at 1, modify.
  rewrite emit_logged, Hl.
  unfold bind, deref. rewrite Hp, Ht.
  destruct (ExecuteTemplate t (execNameOf v) data) as [out [e|]]; reflexivity.
Qed.

Lemma Render_not_found (s : State) w nm data c :
  templates s !! nm = None ->
  Render w nm data c s =
    (Val (w, NoContent c StatusInternalServerError),
     logged [DebugCtx "Render";
             ErrorCtx "failed to load template" (TemplateNotFound nm);
             WriteNoContent StatusInternalServerError] s).
Proof.
  intros Hn.
  rewrite (Render_lookup_failed s (logged [DebugCtx "Render"] s) _ _ _ _
             (TemplateNotFound nm)).
  - by rewrite logged_logged.
  - by apply lookupTemplate_missing.
Qed.

End Properties.

(** ** Rendering a name that is not registered *)

Section NotFound.
Context `{H : Host}.

(** C1 (as amended). For every name absent from the registry, [Render] logs
    an error that carries the not-found error, writes a no-content response
    with status 500 through the context, and returns the result of that
    response write; the not-found error itself is not returned.  The call
    does not panic, writes nothing to [w] and leaves the renderer as it
    was. *)
Theorem Render_unregistered (s : State) w nm data c :
  templates s !! nm = None ->
  exists s',
    Render w nm data c s = (Val (w, NoContent c StatusInternalServerError), s') /\
    trace s' = (trace s ++ [DebugCtx "Render";
                            ErrorCtx "failed to load template" (TemplateNotFound nm);
                            WriteNoContent StatusInternalServerError])%list /\
    templates s' = templates s /\ heap s' = heap s /\
    fsys s' = fsys s /\ autoReload s' = autoReload s.
Proof.
  intros Hn. eexists. split; [by apply Render_not_found|]. by repeat split.
Qed.

End NotFound.

Lemma Render_unregistered_witness :
  templates Sample.empty !! "missing.html" = None /\
  exists s',
    Render "" "missing.html" tt Sample.ctx Sample.empty
      = (Val ("", NoContent Sample.ctx StatusInternalServerError), s') /\
    trace s' = (trace Sample.empty ++
                  [DebugCtx "Render";
                   ErrorCtx "failed to load template" (TemplateNotFound "missing.html");
                   WriteNoContent StatusInternalServerError])%list /\
    templates s' = templates Sample.empty /\ heap s' = heap Sample.empty /\
    fsys s' = fsys Sample.empty /\ autoReload s' = autoReload Sample.empty.
Proof.
  split; [reflexivity|].
  apply (Render_unregistered Sample.empty "" "missing.html" tt Sample.ctx).
  reflexivity.
Defined.

(** C1 as stated fails: with a response writer that reports no failure,
    [Render] of an unregistered name returns no error at all, so the caller
    does not receive the not-found error, bare or wrapped. *)
Lemma Render_unregistered_returns_write_result :
  templates Sample.empty !! "missing.html" = None /\
  Sample.run (Render "" "missing.html" tt Sample.ctx) Sample.empty = Val ("", None) /\
  ~ (exists w e,
       Sample.run (Render "" "missing.html" tt Sample.ctx) Sample.empty = Val (w, Some e) /\
       rootCause e = TemplateNotFound "missing.html").
Proof.
  split; [reflexivity|]. split; [reflexivity|].
  intros (w & e & Hr & _). vm_compute in Hr. discriminate Hr.
Qed.

(** ** Reload mode: a recompilation that fails *)

Section ReloadFailure.
Context `{H : Host}.

(** C2 (as amended). In reload mode, when the recompilation of a registered
    view fails, [Render] logs the compile error, writes a no-content
    response with status 500 and returns the result of that write.  Nothing
    is executed and nothing reaches [w]: there is no fallback to the
    artifact the view held, which is dropped from the view. *)
Theorem Render_reload_failure (s : State) w nm data c p v e :
  autoReload s = true ->
  templates s !! nm = Some p ->
  heap s !! p = Some v ->
  ParseFS (templateFuncs s) (Base (name v)) (fsys s) (patternsOf v) = Err e ->
  exists s',
    Render w nm data c s = (Val (w, NoContent c StatusInternalServerError), s') /\
    trace s' = (trace s ++ [DebugCtx "Render"; Debug "register template";
                            ErrorCtx "failed to load template" (parseError v e);
                            WriteNoContent StatusInternalServerError])%list /\
    heap s' !! p = Some (setTemplate None v) /\
    templates s' = templates s.
Proof.
  intros Hr Hn Hp He. eexists. split.
  - eapply Render_lookup_failed.
    rewrite (lookupTemplate_reload _ nm p v); [|done..].
    simpl. rewrite He. reflexivity.
  - simpl. rewrite lookup_insert_eq. repeat split.
    by rewrite <- !app_assoc.
Qed.

End ReloadFailure.

Lemma Render_reload_failure_witness :
  let s := setFsys Sample.brokenViews Sample.reloading in
  let v := mkView "layout.html" "pages/index.html" ""
             (Some (Sample.mkTmpl "index.html" []
                      [("layout.html", "layout"); ("index.html", "index")])) in
  exists s',
    Render "old" "index.html" tt Sample.ctx s
      = (Val ("old", NoContent Sample.ctx StatusInternalServerError), s') /\
    trace s' = (trace s ++ [DebugCtx "Render"; Debug "register template";
                            ErrorCtx "failed to load template"
                              (parseError v (External "unclosed action"));
                            WriteNoContent StatusInternalServerError])%list /\
    heap s' !! 0%nat = Some (setTemplate None v) /\
    templates s' = templates s.
Proof.
  intros s v.
  apply (Render_reload_failure s "old" "index.html" tt Sample.ctx 0%nat v
           (External "unclosed action")); reflexivity.
Defined.

(** C2 as stated fails: the compile error is logged, not returned.  With a
    response writer that reports no failure the caller gets no error. *)
Lemma Render_reload_failure_returns_write_result :
  let s := setFsys Sample.brokenViews Sample.reloading in
  autoReload s = true /\
  Sample.run (compileTemplate 0%nat) s =
    Val (Some (Wrapped "failed to parse template pages/index.html"
                 (External "unclosed action"))) /\
  Sample.run (Render "" "index.html" tt Sample.ctx) s = Val ("", None) /\
  ~ (exists w e, Sample.run (Render "" "index.html" tt Sample.ctx) s = Val (w, Some e)).
Proof.
  repeat split; try (vm_compute; reflexivity).
  intros (w & e & Hr). vm_compute in Hr. discriminate Hr.
Qed.

(** ** Compiling a view *)

Section Compile.
Context `{H : Host}.

(** C5. [compileTemplate] hands the engine the pattern list
    [layout?, includes?, page] in this order, asks for one artifact named
    after the base name of the page file and bound to the shared function
    map, and on success stores that artifact in the view and the view in the
    registry under the base name, inserting or overwriting. *)
Theorem compileTemplate_success (s : State) p v t :
  heap s !! p = Some v ->
  ParseFS (templateFuncs s) (Base (name v)) (fsys s)
    ((if bool_decide (layout v = "") then [] else [layout v]) ++
     (if bool_decide (includes v = "") then [] else [includes v]) ++
     [name v])%list = Ok t ->
  exists s',
    compileTemplate p s = (Val None, s') /\
    templates s' = <[Base (name v) := p]> (templates s) /\
    heap s' = <[p := mkView (layout v) (name v) (includes v) (Some t)]> (heap s) /\
    fsys s' = fsys s /\ autoReload s' = autoReload s /\
    templateFuncs s' = templateFuncs s.
Proof.
  intros Hp Ht. rewrite (compileTemplate_run _ _ _ Hp), patternsOf_eq.
  replace (ParseFS _ _ _ _) with (Ok t).
  - eexists. split; [reflexivity|]. by repeat split.
  - rewrite <- Ht. do 2 f_equal; repeat case_bool_decide; congruence.
Qed.

End Compile.

Lemma compileTemplate_success_witness :
  let s := setTemplates ∅ Sample.cached in
  let v := mkView "layout.html" "pages/index.html" "" None in
  let t : Template := Sample.mkTmpl "index.html" []
             [("layout.html", "layout"); ("index.html", "index")] in
  heap s !! 0%nat = Some (setTemplate (Some t) v) /\
  exists s',
    compileTemplate 0%nat s = (Val None, s') /\
    templates s' = <["index.html" := 0%nat]> ∅ /\
    heap s' = <[0%nat := mkView "layout.html" "pages/index.html" "" (Some t)]> (heap s) /\
    fsys s' = fsys s /\ autoReload s' = autoReload s /\
    templateFuncs s' = templateFuncs s.
Proof.
  intros s v t. split; [reflexivity|].
  apply (compileTemplate_success s 0%nat (setTemplate (Some t) v) t); reflexivity.
Defined.

(** ** The entry point *)

Section EntryPoint.
Context `{H : Host}.

(** C6. For a registered view, [Render] executes the artifact under the
    base name of the layout when the view has a non-empty layout, and under
    the base name of the page file otherwise.  The artifact is the stored
    one without reload and the freshly compiled one in reload mode. *)
Theorem Render_entry_point (s : State) w nm data c p v t :
  templates s !! nm = Some p ->
  heap s !! p = Some v ->
  (if autoReload s
   then ParseFS (templateFuncs s) (Base (name v)) (fsys s) (patternsOf v) = Ok t
   else template v = Some t) ->
  let entry := if bool_decide (layout v = "") then Base (name v) else Base (layout v) in
  fst (Render w nm data c s) =
    Val (w +:+ fst (ExecuteTemplate t entry data), snd (ExecuteTemplate t entry data)).
Proof.
  intros Hn Hp Ht entry.
  assert (He : execNameOf v = entry).
  { unfold execNameOf, entry. repeat case_bool_decide; congruence. }
  destruct (autoReload s) eqn:Hr.
  - erewrite Render_lookup_found with (v := setTemplate (Some t) v) (t := t).
    + simpl. by rewrite <- He.
    + rewrite (lookupTemplate_reload _ nm p v); [|done..]. simpl. by rewrite Ht.
    + simpl. by rewrite lookup_insert_eq.
    + reflexivity.
  - erewrite Render_lookup_found with (v := v) (t := t).
    + simpl. by rewrite <- He.
    + by apply lookupTemplate_cached.
    + done.
    + done.
Qed.

End EntryPoint.

Lemma Render_entry_point_witness :
  let t : Template := Sample.mkTmpl "index.html" []
             [("layout.html", "layout"); ("index.html", "index")] in
  fst (Render "" "index.html" tt Sample.ctx Sample.cached) =
    Val ("" +:+ fst (ExecuteTemplate t (Base "layout.html") tt),
         snd (ExecuteTemplate t (Base "layout.html") tt)).
Proof.
  intros t.
  apply (Render_entry_point Sample.cached "" "index.html" tt Sample.ctx 0%nat
           (mkView "layout.html" "pages/index.html" "" (Some t)) t); reflexivity.
Defined.

(** ** Rendering without reload *)

Section Cached.
Context `{H : Host}.

(** Without reload, [Render] runs no compilation: it only appends to the
    trace, and the file collection plays no part in what it returns. *)
Lemma Render_unfold (s : State) w nm data c :
  Render w nm data c s =
    match lookupTemplate nm (logged [DebugCtx "Render"] s) with
    | (Panic, s') => (Panic, s')
    | (Val (Err err), s') =>
        (Val (w, NoContent c StatusInternalServerError),
         logged [ErrorCtx "failed to load template" err;
                 WriteNoContent StatusInternalServerError] s')
    | (Val (Ok p), s') =>
        match heap s' !! p with
        | None => (Panic, s')
        | Some v =>
            match template v with
            | None => (Panic, s')
            | Some t =>
                let r := ExecuteTemplate t (execNameOf v) data in
                (Val (w +:+ fst r, snd r),
                 logged [match snd r with
                         | Some e => ErrorCtx "failed to execute template" e
                         | None => DebugCtx "Render complete"
                         end] s')
            end
        end
    end.
Proof.
  destruct (lookupTemplate nm (logged [DebugCtx "Render"] s)) as [[[p|err]|] s'] eqn:Hl.
  - destruct (heap s' !! p) as [v|] eqn:Hp.
    + destruct (template v) as [t|] eqn:Ht.
      * by apply (Render_lookup_found s s' w nm data c p v t).
      * unfold Render, bind at 1 2. unfold log at 1, modify.
        rewrite emit_logged, Hl. unfold bind, deref, panic. by rewrite Hp, Ht.
    + unfold Render, bind at 1 2. unfold log at 1, modify.
      rewrite emit_logged, Hl. unfold bind, deref. by rewrite Hp.
  - by apply Render_lookup_failed.
  - unfold Render, bind at 1 2. unfold log at 1, modify.
    by rewrite emit_logged, Hl.
Qed.

Lemma lookupTemplate_no_reload (s : State) nm :
  autoReload s = false ->
  lookupTemplate nm s =
    (Val (match templates s !! nm with
          | Some p => Ok p
          | None => Err (TemplateNotFound nm)
          end), s).
Proof.
  intros Hr. destruct (templates s !! nm) as [p|] eqn:Hn.
  - by apply lookupTemplate_cached.
  - by apply lookupTemplate_missing.
Qed.

(** Without reload, [Render] runs no compilation: it only appends to the
    trace, and the file collection plays no part in what it returns. *)
Lemma Render_cached_run (s : State) w nm data c :
  autoReload s = false ->
  (exists evs, snd (Render w nm data c s) = logged evs s) /\
  forall fs', fst (Render w nm data c (setFsys fs' s)) = fst (Render w nm data c s).
Proof.
  intros Hr. split.
  - rewrite Render_unfold, lookupTemplate_no_reload by done.
    simpl. destruct (templates s !! nm) as [p|]; simpl.
    + destruct (heap s !! p) as [v|]; [|by eexists].
      destruct (template v) as [t|]; [|by eexists].
      cbv zeta. rewrite logged_logged. by eexists.
    + rewrite logged_logged. by eexists.
  - intros fs'. rewrite !Render_unfold, !lookupTemplate_no_reload by done.
    simpl. destruct (templates s !! nm) as [p|]; simpl; [|done].
    destruct (heap s !! p) as [v|]; [|done].
    by destruct (template v) as [t|].
Qed.

(** C7. With [autoReload] disabled, [lookupTemplate] returns the cached view
    and leaves the renderer untouched; [Render] never compiles, so a second
    render of the same name with the same data gives the same output and
    error after the file collection was replaced by any other one. *)
Theorem Render_without_reload_is_stable (s : State) w nm data c p fs' :
  autoReload s = false ->
  templates s !! nm = Some p ->
  lookupTemplate nm s = (Val (Ok p), s) /\
  let s1 := snd (Render w nm data c s) in
  heap s1 = heap s /\ templates s1 = templates s /\
  fst (Render w nm data c (setFsys fs' s1)) = fst (Render w nm data c s).
Proof.
  intros Hr Hn. split; [by apply lookupTemplate_cached|].
  destruct (Render_cached_run s w nm data c Hr) as [[evs Hs] _].
  simpl. rewrite Hs. repeat split.
  destruct (Render_cached_run (logged evs s) w nm data c Hr) as [_ Hfs'].
  rewrite Hfs'.
  rewrite !Render_unfold, !lookupTemplate_no_reload by done.
  simpl. rewrite Hn.
  destruct (heap s !! p) as [v|]; [|done].
  by destruct (template v) as [t|].
Qed.

End Cached.

Lemma Render_without_reload_is_stable_witness :
  lookupTemplate "index.html" Sample.cached = (Val (Ok 0%nat), Sample.cached) /\
  let s1 := snd (Render "" "index.html" tt Sample.ctx Sample.cached) in
  heap s1 = heap Sample.cached /\ templates s1 = templates Sample.cached /\
  fst (Render "" "index.html" tt Sample.ctx (setFsys Sample.brokenViews s1))
    = fst (Render "" "index.html" tt Sample.ctx Sample.cached).
Proof.
  apply (Render_without_reload_is_stable Sample.cached "" "index.html" tt Sample.ctx
           0%nat Sample.brokenViews); reflexivity.
Defined.

(** ** [RenderToHTMLBlob] *)

Section Blob.
Context `{H : Host}.

(** C8. [RenderToHTMLBlob] renders into an empty buffer.  When [Render]
    returns no error, the buffer is written once through [HTMLBlob] with the
    given status code and the result of that write is returned; when
    [Render] returns an error, that error is returned and nothing is added
    to what [Render] did. *)
Theorem RenderToHTMLBlob_spec (s : State) c code nm data :
  match Render "" nm data c s with
  | (Val (buf, None), s1) =>
      RenderToHTMLBlob c code nm data s =
        (Val (HTMLBlob c code buf), logged [WriteHTMLBlob code buf] s1)
  | (Val (_, Some e), s1) =>
      RenderToHTMLBlob c code nm data s = (Val (Some e), s1)
  | (Panic, s1) =>
      RenderToHTMLBlob c code nm data s = (Panic, s1)
  end.
Proof.
  destruct (Render "" nm data c s) as [[[buf [e|]]|] s1] eqn:Hr;
    unfold RenderToHTMLBlob, bind; rewrite Hr; reflexivity.
Qed.

End Blob.

(** ** [readFileNames] *)

Section ReadFileNames.
Context `{H : Host}.

Lemma readFileNamesFrom_Ok (fs : FS) ps : forall acc l,
  readFileNamesFrom fs acc ps = Ok l <->
  exists ls, Forall2 (fun q m => Glob fs q = Ok m /\ m <> []) ps ls /\
             l = (acc ++ concat ls)%list.
Proof.
  induction ps as [|q ps IH]; intros acc l; simpl.
  - split.
    + intros [= <-]. exists []. split; [constructor|]. by rewrite app_nil_r.
    + intros (ls & Hls & ->). inversion Hls; subst. simpl. by rewrite app_nil_r.
  - destruct (Glob fs q) as [m|e] eqn:Hq.
    + destruct m as [|x m]; simpl.
      * split; [discriminate|].
        intros (ls & Hls & _). inversion Hls as [|? ? ? ? [Hm Hne]]; subst.
        inversion Hm; subst. congruence.
      * rewrite IH. split.
        -- intros (ls & Hls & ->). exists ((x :: m) :: ls). split.
           ++ constructor; [done|done].
           ++ simpl. by rewrite <- !app_assoc.
        -- intros (ls & Hls & ->).
           inversion Hls as [|? m' ? ls' [Hm Hne] Hrest]; subst.
           assert (m' = x :: m) as -> by congruence.
           exists ls'. split; [done|].
           simpl. by rewrite <- app_assoc.
    + split; [discriminate|].
      intros (ls & Hls & _). inversion Hls as [|? ? ? ? [Hm _]]; subst. congruence.
Qed.

Lemma readFileNamesFrom_no_match (fs : FS) ps p : forall acc,
  readFileNamesFrom fs acc ps = Err (PatternMatchesNoFiles p) <->
  exists pre post, ps = (pre ++ p :: post)%list /\ Glob fs p = Ok [] /\
                   Forall (fun q => exists m, Glob fs q = Ok m /\ m <> []) pre.
Proof.
  induction ps as [|q ps IH]; intros acc; simpl.
  - split; [discriminate|]. intros (pre & post & Heq & _). by destruct pre.
  - destruct (Glob fs q) as [m|e] eqn:Hq.
    + destruct m as [|x m]; simpl.
      * split.
        -- intros [= <-]. exists [], ps. by repeat split.
        -- intros (pre & post & Heq & Hp & Hpre). destruct pre as [|q' pre].
           ++ simpl in Heq. by injection Heq as -> _.
           ++ simpl in Heq. injection Heq as <- _.
              inversion Hpre as [|? ? (m & Hm & Hne)]; subst. congruence.
      * rewrite IH. split.
        -- intros (pre & post & -> & Hp & Hpre). exists (q :: pre), post.
           repeat split; [done|]. constructor; [|done]. by exists (x :: m).
        -- intros (pre & post & Heq & Hp & Hpre). destruct pre as [|q' pre].
           ++ simpl in Heq. injection Heq as -> _. congruence.
           ++ simpl in Heq. injection Heq as <- ->.
              exists pre, post. repeat split; [done|]. by inversion Hpre.
    + split; [discriminate|].
      intros (pre & post & Heq & Hp & Hpre). destruct pre as [|q' pre].
      * simpl in Heq. injection Heq as -> _. congruence.
      * simpl in Heq. injection Heq as <- _.
        inversion Hpre as [|? ? (m & Hm & _)]; subst. congruence.
Qed.

Lemma readFileNamesFrom_well_formed (fs : FS) ps : forall acc,
  (forall q, q ∈ ps -> exists m, Glob fs q = Ok m) ->
  (exists p, readFileNamesFrom fs acc ps = Err (PatternMatchesNoFiles p)) <->
  (exists q, q ∈ ps /\ Glob fs q = Ok []).
Proof.
  induction ps as [|q ps IH]; intros acc Hwf; simpl.
  - split; [by intros [p Hp]|]. intros (q & Hq & _). by apply elem_of_nil in Hq.
  - destruct (Hwf q) as [m Hq]; [by left|]. rewrite Hq.
    destruct m as [|x m]; simpl.
    + split; [|by eauto]. intros _. exists q. split; [by left|done].
    + rewrite IH by (intros q' Hq'; apply Hwf; by right).
      split.
      * intros (q' & Hin & Hq'). exists q'. split; [by right|done].
      * intros (q' & Hin & Hq'). apply elem_of_cons in Hin as [->|Hin].
        -- congruence.
        -- by exists q'.
Qed.

Lemma readFileNamesFrom_glob_error (fs : FS) ps e : forall acc,
  readFileNamesFrom fs acc ps = Err (Wrapped "failed to list using file pattern" e) <->
  exists pre q post, ps = (pre ++ q :: post)%list /\ Glob fs q = Err e /\
                     Forall (fun q => exists m, Glob fs q = Ok m /\ m <> []) pre.
Proof.
  induction ps as [|q ps IH]; intros acc; simpl.
  - split; [discriminate|]. intros (pre & q & post & Heq & _). by destruct pre.
  - destruct (Glob fs q) as [m|e'] eqn:Hq.
    + destruct m as [|x m]; simpl.
      * split; [discriminate|].
        intros (pre & q' & post & Heq & Hq' & Hpre). destruct pre as [|q0 pre].
        -- simpl in Heq. injection Heq as -> _. congruence.
        -- simpl in Heq. injection Heq as <- _.
           inversion Hpre as [|? ? (m & Hm & Hne)]; subst. congruence.
      * rewrite IH. split.
        -- intros (pre & q' & post & -> & Hq' & Hpre). exists (q :: pre), q', post.
           repeat split; [done|]. constructor; [|done]. by exists (x :: m).
        -- intros (pre & q' & post & Heq & Hq' & Hpre). destruct pre as [|q0 pre].
           ++ simpl in Heq. injection Heq as -> _. congruence.
           ++ simpl in Heq. injection Heq as <- ->.
              exists pre, q', post. repeat split; [done|]. by inversion Hpre.
    + split.
      * intros [= <-]. exists [], q, ps. by repeat split.
      * intros (pre & q' & post & Heq & Hq' & Hpre). destruct pre as [|q0 pre].
        -- simpl in Heq. injection Heq as -> _. congruence.
        -- simpl in Heq. injection Heq as <- _.
           inversion Hpre as [|? ? (m & Hm & _)]; subst. congruence.
Qed.

Lemma readFileNamesFrom_errors (fs : FS) ps err : forall acc,
  readFileNamesFrom fs acc ps = Err err ->
  (exists p, err = PatternMatchesNoFiles p) \/
  (exists e, err = Wrapped "failed to list using file pattern" e).
Proof.
  induction ps as [|q ps IH]; intros acc; simpl; [discriminate|].
  destruct (Glob fs q) as [[|x m]|e]; simpl.
  - intros [= <-]. left. by eexists.
  - apply IH.
  - intros [= <-]. right. by eexists.
Qed.

(** C4 (as amended). [readFileNames] fails with the "pattern matches no
    files" error for [p] exactly when [p] is the first pattern that does not
    yield a file and it is well formed and matches nothing; a malformed
    pattern met before it fails the call with the wrapped glob error
    instead.  When every pattern is well formed, the call fails with that
    error if and only if some pattern matches zero files.  It succeeds
    exactly when every pattern matches at least one file, and then returns
    the matches concatenated in pattern order, each list in match order.
    It fails with the glob error [e] wrapped as "failed to list using file
    pattern" exactly when the first pattern that does not yield a file is
    malformed with error [e], and it fails in no other way. *)
Theorem readFileNames_spec (fs : FS) (patterns : list string) :
  (forall p,
     readFileNames fs patterns = Err (PatternMatchesNoFiles p) <->
     exists pre post, patterns = (pre ++ p :: post)%list /\ Glob fs p = Ok [] /\
                      Forall (fun q => exists m, Glob fs q = Ok m /\ m <> []) pre) /\
  ((forall q, q ∈ patterns -> exists m, Glob fs q = Ok m) ->
   ((exists p, readFileNames fs patterns = Err (PatternMatchesNoFiles p)) <->
    (exists q, q ∈ patterns /\ Glob fs q = Ok []))) /\
  (forall l,
     readFileNames fs patterns = Ok l <->
     exists ls, Forall2 (fun q m => Glob fs q = Ok m /\ m <> []) patterns ls /\
                l = concat ls) /\
  (forall e,
     readFileNames fs patterns
       = Err (Wrapped "failed to list using file pattern" e) <->
     exists pre q post, patterns = (pre ++ q :: post)%list /\ Glob fs q = Err e /\
                        Forall (fun q => exists m, Glob fs q = Ok m /\ m <> []) pre) /\
  (forall err,
     readFileNames fs patterns = Err err ->
     (exists p, err = PatternMatchesNoFiles p) \/
     (exists e, err = Wrapped "failed to list using file pattern" e)).
Proof.
  unfold readFileNames. split; [|split; [|split; [|split]]].
  - intros p. apply readFileNamesFrom_no_match.
  - apply readFileNamesFrom_well_formed.
  - intros l. apply readFileNamesFrom_Ok.
  - intros e. apply readFileNamesFrom_glob_error.
  - intros err. apply readFileNamesFrom_errors.
Qed.

End ReadFileNames.

Lemma readFileNames_spec_witness :
  readFileNames Sample.views ["nothing/*"; "pages/*.html"]
    = Err (PatternMatchesNoFiles "nothing/*") /\
  readFileNames Sample.views ["includes/*.html"; "pages/*.html"]
    = Ok ["includes/footer.html"; "includes/header.html"; "pages/index.html"] /\
  readFileNames Sample.views ["pages/*.html"; "["; "nothing/*"]
    = Err (Wrapped "failed to list using file pattern"
             (External "syntax error in pattern")).
Proof.
  split; [|split].
  - apply (proj1 (readFileNames_spec (H := Sample.host) Sample.views ["nothing/*"; "pages/*.html"])).
    exists [], ["pages/*.html"]. repeat split. constructor.
  - apply (proj1 (proj2 (proj2 (readFileNames_spec (H := Sample.host) Sample.views
                                  ["includes/*.html"; "pages/*.html"])))).
    exists [["includes/footer.html"; "includes/header.html"]; ["pages/index.html"]].
    split; [|reflexivity].
    repeat constructor; discriminate.
  - apply (proj1 (proj2 (proj2 (proj2 (readFileNames_spec (H := Sample.host)
                                          Sample.views
                                          ["pages/*.html"; "["; "nothing/*"]))))).
    exists ["pages/*.html"], "[", ["nothing/*"].
    split; [reflexivity|]. split; [reflexivity|].
    constructor; [|constructor]. eexists. split; [reflexivity|discriminate].
Defined.

(** C4 as stated fails: a pattern that matches zero files does not produce
    the "pattern matches no files" error when a malformed pattern stands
    before it; the call fails with the wrapped glob error. *)
Lemma readFileNames_bad_pattern_first :
  let patterns := ["["; "nothing/*"] in
  readFileNames Sample.views patterns
    = Err (Wrapped "failed to list using file pattern"
             (External "syntax error in pattern")) /\
  ~ ((exists p, readFileNames Sample.views patterns = Err (PatternMatchesNoFiles p)) <->
     (exists q, q ∈ patterns /\ Glob (Sample.views : FS) q = Ok [])).
Proof.
  split; [reflexivity|].
  intros [_ Hback].
  destruct Hback as [p Hp].
  - exists "nothing/*". split; [|reflexivity]. right. left.
  - vm_compute in Hp. discriminate Hp.
Qed.

(** ** Replacing the artifact of a view *)

Section Replacement.
Context `{H : Host}.

(** C3 (as amended). [compileTemplate] replaces the artifact slot of the
    view as a whole and touches no other view.  After a successful parse the
    slot holds the new artifact and the view is registered under its base
    name.  After a failed parse the registry is unchanged, so the view stays
    registered if it was, and its slot is empty: the artifact it held is
    dropped.  In reload mode a later [Render] compiles again before it
    executes, whatever the slot holds, and so executes the newly parsed
    artifact or nothing. *)
Theorem compileTemplate_replaces_slot (s : State) p v :
  heap s !! p = Some v ->
  let parse := ParseFS (templateFuncs s) (Base (name v)) (fsys s) (patternsOf v) in
  let s' := snd (compileTemplate p s) in
  (forall q, q <> p -> heap s' !! q = heap s !! q) /\
  match parse with
  | Ok t =>
      fst (compileTemplate p s) = Val None /\
      heap s' !! p = Some (setTemplate (Some t) v) /\
      templates s' = <[Base (name v) := p]> (templates s)
  | Err e =>
      fst (compileTemplate p s) = Val (Some (parseError v e)) /\
      heap s' !! p = Some (setTemplate None v) /\
      templates s' = templates s
  end /\
  (forall nm w data c,
     autoReload s = true ->
     templates s !! nm = Some p ->
     match parse with
     | Ok t =>
         fst (Render w nm data c s) =
           Val (w +:+ fst (ExecuteTemplate t (execNameOf v) data),
                snd (ExecuteTemplate t (execNameOf v) data))
     | Err e =>
         fst (Render w nm data c s) = Val (w, NoContent c StatusInternalServerError)
     end).
Proof.
  intros Hp parse s'. subst s'. rewrite (compileTemplate_run _ _ _ Hp).
  fold parse. split; [|split].
  - intros q Hq. destruct parse; simpl; by rewrite lookup_insert_ne.
  - destruct parse; simpl; by rewrite lookup_insert_eq.
  - intros nm w data c Hr Hn.
    rewrite Render_unfold, (lookupTemplate_reload _ nm p v) by done.
    simpl. fold parse. destruct parse as [t|e]; [|done].
    simpl. by rewrite lookup_insert_eq.
Qed.

End Replacement.

Lemma compileTemplate_replaces_slot_witness :
  let s := setFsys Sample.brokenViews Sample.reloading in
  let t : Template := Sample.mkTmpl "index.html" []
             [("layout.html", "layout"); ("index.html", "index")] in
  let v := mkView "layout.html" "pages/index.html" "" (Some t) in
  let s' := snd (compileTemplate 0%nat s) in
  heap s !! 0%nat = Some v /\
  fst (compileTemplate 0%nat s) = Val (Some (parseError v (External "unclosed action"))) /\
  heap s' !! 0%nat = Some (setTemplate None v) /\
  templates s' = templates s.
Proof.
  intros s t v s'. split; [reflexivity|].
  exact (proj1 (proj2 (compileTemplate_replaces_slot s 0%nat v eq_refl))).
Defined.

(** C3 as stated fails: a registered, compiled view whose recompilation
    fails stays in the registry with an empty artifact slot, so it is
    neither usable nor absent; once reload is switched off with the
    package's own option, [Render] of that name dereferences the nil
    artifact. *)
Lemma failed_recompile_leaves_unusable_view :
  let s := setFsys Sample.brokenViews Sample.reloading in
  let s' := Sample.exec (compileTemplate 0%nat) s in
  usableOrAbsent s "index.html" /\
  templates s' !! "index.html" = Some 0%nat /\
  ~ usableOrAbsent s' "index.html" /\
  Sample.run (Render "" "index.html" tt Sample.ctx) (WithAutoReload false s') = Panic.
Proof.
  intros s s'. repeat split.
  - unfold usableOrAbsent. vm_compute. do 2 eexists. split; reflexivity.
  - unfold usableOrAbsent. intros Hu. vm_compute in Hu.
    destruct Hu as (v & t & Hv & Ht). injection Hv as <-. discriminate Ht.
Qed.

(** ** Registration *)

Section Registration.
Context `{H : Host}.

Lemma registryAfter_cons (reg : gmap string loc) f files p ps :
  registryAfter reg (f :: files) (p :: ps)
  = registryAfter (<[Base f := p]> reg) files ps.
Proof. reflexivity. Qed.

(** Only base names of the files are written. *)
Lemma registryAfter_other files : forall (reg : gmap string loc) ps k,
  (forall f, f ∈ files -> Base f <> k) ->
  registryAfter reg files ps !! k = reg !! k.
Proof.
  induction files as [|f files IH]; intros reg ps k Hk; [reflexivity|].
  destruct ps as [|p ps]; [reflexivity|].
  rewrite registryAfter_cons, IH.
  - apply lookup_insert_ne, Hk. by left.
  - intros g Hg. apply Hk. by right.
Qed.

(** The last file with a given base name owns the key. *)
Lemma registryAfter_last files : forall (reg : gmap string loc) ps i f p,
  length ps = length files ->
  lastWithBase files i f ->
  ps !! i = Some p ->
  registryAfter reg files ps !! Base f = Some p.
Proof.
  induction files as [|g files IH]; intros reg ps i f p Hlen [Hf Hlast] Hp.
  - by rewrite lookup_nil in Hf.
  - destruct ps as [|q ps]; [discriminate Hlen|].
    rewrite registryAfter_cons. destruct i as [|i]; simpl in Hf, Hp.
    + injection Hf as ->. injection Hp as ->.
      rewrite registryAfter_other; [apply lookup_insert_eq|].
      intros g Hg. apply list_elem_of_lookup in Hg as [j Hj].
      apply (Hlast (S j)); [lia|done].
    + apply (IH _ ps i); [by injection Hlen|split; [done|]|done].
      intros j h Hij Hh. apply (Hlast (S j)); [lia|done].
Qed.

(** Every file has a last file with the same base name. *)
Lemma lastWithBase_exists files : forall f,
  f ∈ files -> exists i g, lastWithBase files i g /\ Base g = Base f.
Proof.
  induction files as [|h files IH]; intros f Hf; [by apply elem_of_nil in Hf|].
  destruct (decide (Exists (fun g => Base g = Base f) files)) as [Hex|Hno].
  - apply Exists_exists in Hex as (g & Hg & Hb).
    destruct (IH g Hg) as (i & g' & [Hi Hlast] & Hb').
    exists (S i), g'. split; [split; [done|]|congruence].
    intros [|j] k Hij Hk; [lia|]. apply (Hlast j); [lia|done].
  - exists 0%nat, h.
    assert (Hall : forall g, g ∈ files -> Base g <> Base f).
    { intros g Hg Hb. apply Hno, Exists_exists. by exists g. }
    apply elem_of_cons in Hf as [->|Hf]; [|by destruct (Hall f Hf)].
    split; [split; [done|]|done].
    intros [|j] k Hij Hk; [lia|]. apply Hall. by eapply list_elem_of_lookup_2.
Qed.

(** The registration loop, when it reports no error. *)
Lemma registerEach_ok lay inc files : forall (s s' : State),
  registerEach lay inc files s = (Val None, s') ->
  (exists ps, registeredViews lay inc files ps s s') /\
  fsys s' = fsys s /\ autoReload s' = autoReload s /\
  templateFuncs s' = templateFuncs s.
Proof.
  induction files as [|f files IH]; intros s s' Hrun.
  - injection Hrun as <-. split; [|done]. exists [].
    repeat split; try done; try (by constructor).
    by intros p Hp%elem_of_nil.
  - simpl in Hrun. unfold bind at 1, alloc in Hrun.
    set (p := fresh (dom (heap s))) in *.
    set (v0 := mkView lay f inc None) in *.
    set (s1 := setHeap (<[p := v0]> (heap s)) s) in *.
    assert (Hfresh : heap s !! p = None).
    { apply not_elem_of_dom, is_fresh. }
    unfold bind at 1 in Hrun.
    rewrite (compileTemplate_run s1 p v0) in Hrun by apply lookup_insert_eq.
    destruct (ParseFS _ _ _ _) as [t|e]; [|discriminate Hrun].
    set (s2 := compiledState p v0 (Some t) _ s1) in *.
    destruct (IH s2 s' Hrun) as [(ps & Hlen & Hnd & Hnew & Hold & Hviews & Hreg) Hcfg].
    assert (Hp2 : heap s2 !! p = Some (mkView lay f inc (Some t))).
    { subst s2. simpl. by rewrite lookup_insert_eq. }
    assert (Hnotin : p ∉ ps).
    { intros Hin. apply Hnew in Hin. congruence. }
    split; [|done]. exists (p :: ps). repeat split.
    + simpl. by rewrite Hlen.
    + by constructor.
    + intros q [->|Hq]%elem_of_cons; [done|].
      destruct (decide (q = p)) as [->|Hne]; [done|].
      apply Hnew in Hq. subst s2 s1. simpl in Hq.
      by rewrite !lookup_insert_ne in Hq.
    + intros q Hq. apply not_elem_of_cons in Hq as [Hne Hq].
      rewrite (Hold q Hq). subst s2 s1. simpl. by rewrite !lookup_insert_ne.
    + constructor; [|done]. exists t. by rewrite (Hold p Hnotin).
    + by rewrite Hreg.
Qed.

End Registration.

(** ** Base names *)

Lemma takeWhile_Forall {A} (f : A -> bool) l :
  Forall (fun x => f x = true) (takeWhile f l).
Proof.
  induction l as [|x l IH]; simpl; [constructor|].
  destruct (f x) eqn:Hx; by constructor.
Qed.

Lemma takeWhile_all {A} (f : A -> bool) l :
  Forall (fun x => f x = true) l -> takeWhile f l = l.
Proof.
  induction 1 as [|x l Hx _ IH]; simpl; [done|]. by rewrite Hx, IH.
Qed.

Lemma rev_not_nil {A} (l : list A) : l <> [] -> rev l <> [].
Proof.
  intros Hne Hnil. apply Hne. apply (f_equal (@length _)) in Hnil.
  rewrite length_rev in Hnil. by destruct l.
Qed.

Lemma lastElementRev_plain (b : list ascii) :
  Forall (fun c => negb (is_slash c) = true) b ->
  lastElementRev b = rev b.
Proof.
  intros Hb. unfold lastElementRev. pose proof (Forall_rev Hb) as Hr.
  destruct (rev b) as [|y r]; [reflexivity|].
  assert (Hy : is_slash y = false).
  { inversion Hr as [|? ? Hy' _]; subst. by destruct (is_slash y). }
  simpl dropWhile. rewrite Hy. by apply takeWhile_all.
Qed.

(** A non-empty name without a slash is its own base name. *)
Lemma Base_plain (b : list ascii) :
  b <> [] ->
  Forall (fun c => negb (is_slash c) = true) b ->
  Base (string_of_list_ascii b) = string_of_list_ascii b.
Proof.
  intros Hne Hb. pose proof (rev_not_nil b Hne) as Hrev.
  unfold Base. rewrite list_ascii_of_string_of_list_ascii, lastElementRev_plain by done.
  destruct (string_of_list_ascii b) eqn:Hs.
  - destruct b; [done|discriminate Hs].
  - destruct (rev b) as [|y r] eqn:Hr; [done|].
    by rewrite <- Hs, <- Hr, rev_involutive.
Qed.

(** The three shapes of a base name. *)
Lemma Base_shape g :
  Base g = "." \/ Base g = "/" \/
  exists b, b <> [] /\ Forall (fun c => negb (is_slash c) = true) b /\
            Base g = string_of_list_ascii b.
Proof.
  unfold Base. destruct g as [|a g]; [by left|].
  pose proof (takeWhile_Forall (fun c => negb (is_slash c))
                (dropWhile is_slash (rev (list_ascii_of_string (String a g))))) as He.
  fold (lastElementRev (list_ascii_of_string (String a g))) in He.
  destruct (lastElementRev (list_ascii_of_string (String a g))) as [|c e];
    [by right; left|].
  right; right. exists (rev (c :: e)).
  split; [by apply rev_not_nil|]. split; [by apply Forall_rev|done].
Qed.

(** [Base] is idempotent: base names are exactly its fixed points. *)
Lemma Base_fixed g : Base (Base g) = Base g.
Proof.
  destruct (Base_shape g) as [-> | [-> | (b & Hne & Hb & ->)]];
    [reflexivity|reflexivity|by apply Base_plain].
Qed.

(** A path that differs from its base name is the base name of nothing. *)
Lemma not_a_base_name f g : f <> Base f -> Base g <> f.
Proof. intros Hf Hg. apply Hf. by rewrite <- Hg, Base_fixed. Qed.

(** ** The registration functions *)

Section AddViews.
Context `{H : Host}.

(** A registration function that reports no error has resolved its
    patterns and run the loop to its end. *)
Lemma registration_ok (wrap : error -> error) lay inc patterns (s s' : State) :
  (bind (gets fsys) (fun fs =>
     match readFileNames fs patterns with
     | Err err => ret (Some (wrap err))
     | Ok filenames => registerEach lay inc filenames
     end)) s = (Val None, s') ->
  exists files,
    readFileNames (fsys s) patterns = Ok files /\
    registerEach lay inc files s = (Val None, s').
Proof.
  unfold bind, gets, ret. intros Hrun.
  destruct (readFileNames (fsys s) patterns) as [files|e]; [|discriminate Hrun].
  by exists files.
Qed.

(** C10. After a registration that reports no error, the registry is keyed
    by the base names of the matched page files.  Looking up the base name
    of a matched file finds the view of the last matched file with that base
    name, so of two files with one base name the later replaces the earlier
    without any error.  No other key is written: a matched path that is not
    its own base name is not a key, and [Render] called with it takes the
    not-found path unless that name was registered before. *)
Theorem registry_keyed_by_base_name lay inc patterns (s s' : State) :
  AddWithLayoutAndIncludes lay inc patterns s = (Val None, s') ->
  exists files,
    readFileNames (fsys s) patterns = Ok files /\
    (forall f, f ∈ files ->
       exists i g p t,
         lastWithBase files i g /\ Base g = Base f /\
         templates s' !! Base f = Some p /\
         heap s' !! p = Some (mkView lay g inc (Some t))) /\
    (forall i j f1 f2,
       (i < j)%nat -> files !! i = Some f1 -> lastWithBase files j f2 ->
       Base f1 = Base f2 ->
       exists p t,
         templates s' !! Base f1 = Some p /\
         heap s' !! p = Some (mkView lay f2 inc (Some t))) /\
    (forall k, (forall f, f ∈ files -> Base f <> k) ->
       templates s' !! k = templates s !! k) /\
    (forall f w data c,
       f <> Base f -> templates s !! f = None ->
       lookupTemplate f s' = (Val (Err (TemplateNotFound f)), s') /\
       fst (Render w f data c s') = Val (w, NoContent c StatusInternalServerError)).
Proof.
  intros Hrun. apply registration_ok in Hrun as (files & Hfiles & Hrun).
  apply registerEach_ok in Hrun
    as [(ps & Hlen & Hnd & Hnew & Hold & Hviews & Hreg) _].
  assert (Hlast : forall i g, lastWithBase files i g ->
            exists p t, templates s' !! Base g = Some p /\
                        heap s' !! p = Some (mkView lay g inc (Some t))).
  { intros i g Hg. pose proof Hg as [Hi _].
    destruct (Forall2_lookup_l _ _ _ _ _ Hviews Hi) as (p & Hp & t & Ht).
    exists p, t. split; [|done]. rewrite Hreg. by apply (registryAfter_last _ _ _ i). }
  assert (Hother : forall k, (forall f, f ∈ files -> Base f <> k) ->
            templates s' !! k = templates s !! k).
  { intros k Hk. rewrite Hreg. by apply registryAfter_other. }
  exists files. split; [done|]. split; [|split; [|split; [done|]]].
  - intros f Hf. destruct (lastWithBase_exists files f Hf) as (i & g & Hg & Hb).
    destruct (Hlast i g Hg) as (p & t & Hp & Ht).
    exists i, g, p, t. by rewrite <- Hb.
  - intros i j f1 f2 _ _ Hj Hb. rewrite Hb. by apply (Hlast j).
  - intros f w data c Hf Hnone.
    assert (Hn : templates s' !! f = None).
    { rewrite Hother; [done|]. intros g _. by apply not_a_base_name. }
    split; [by apply lookupTemplate_missing|].
    by rewrite Render_not_found.
Qed.

End AddViews.

Lemma registry_keyed_by_base_name_witness :
  let s := New Sample.twinViews [] [] in
  let s' := Sample.exec (AddWithLayoutAndIncludes "" "" ["*/index.html"]) s in
  Sample.run (Render "" "index.html" tt Sample.ctx) s' = Val ("public", None) /\
  exists files,
    readFileNames (fsys s) ["*/index.html"] = Ok files /\
    (forall f, f ∈ files ->
       exists i g p t,
         lastWithBase files i g /\ Base g = Base f /\
         templates s' !! Base f = Some p /\
         heap s' !! p = Some (mkView "" g "" (Some t))) /\
    (forall i j f1 f2,
       (i < j)%nat -> files !! i = Some f1 -> lastWithBase files j f2 ->
       Base f1 = Base f2 ->
       exists p t,
         templates s' !! Base f1 = Some p /\
         heap s' !! p = Some (mkView "" f2 "" (Some t))) /\
    (forall k, (forall f, f ∈ files -> Base f <> k) ->
       templates s' !! k = templates s !! k) /\
    (forall f w data c,
       f <> Base f -> templates s !! f = None ->
       lookupTemplate f s' = (Val (Err (TemplateNotFound f)), s') /\
       fst (Render w f data c s') = Val (w, NoContent c StatusInternalServerError)).
Proof.
  intros s s'. split; [vm_compute; reflexivity|].
  apply (registry_keyed_by_base_name "" "" ["*/index.html"] s s').
  vm_compute. reflexivity.
Defined.

(** * Further properties of the package *)

(** ** The invariant of a renderer *)

Section Soundness.
Context `{H : Host}.

Lemma sound_logged evs (s : State) : sound s -> sound (logged evs s).
Proof. intros Hs. exact Hs. Qed.

(** A renderer made by [New] from the package's options has nothing
    registered and nothing logged. *)
Lemma options_keep_empty opts : forall (s : State),
  Forall packageOption opts ->
  templates s = ∅ -> heap s = ∅ -> trace s = [] ->
  let s' := foldl (fun r opt => opt r) s opts in
  templates s' = ∅ /\ heap s' = ∅ /\ trace s' = [].
Proof.
  induction opts as [|o opts IH]; intros s Hopts Ht Hh Htr; [done|].
  inversion Hopts as [|? ? Ho Hrest]; subst. simpl. apply IH; [done|..];
    destruct Ho as [[f ->]|[[b ->]|[g ->]]]; done.
Qed.

(** X1. [New] with any list of the package's options gives a renderer with
    an empty registry, no view and no log entry, which satisfies the
    invariant; so every [Render] on it takes the not-found path. *)
Theorem New_is_empty_and_sound fs0 funcs0 opts :
  Forall packageOption opts ->
  let s := New fs0 funcs0 opts in
  templates s = ∅ /\ heap s = ∅ /\ trace s = [] /\ sound s /\
  forall w nm data c,
    fst (Render w nm data c s) = Val (w, NoContent c StatusInternalServerError).
Proof.
  intros Hopts s.
  destruct (options_keep_empty opts (mkState fs0 false ∅ funcs0 ∅ []) Hopts)
    as (Ht & Hh & Htr); [done..|].
  fold (New fs0 funcs0 opts) in Ht, Hh, Htr. fold s in Ht, Hh, Htr.
  repeat split; try done.
  - intros k p Hk. rewrite Ht in Hk. by rewrite lookup_empty in Hk.
  - intros _ k p Hk. rewrite Ht in Hk. by rewrite lookup_empty in Hk.
  - intros w nm data c. rewrite Render_not_found; [done|].
    rewrite Ht. apply lookup_empty.
Qed.

(** The last [WithAutoReload] among the options decides the mode. *)
Lemma options_autoReload opts : forall (s : State),
  Forall (fun o => (exists f, o = WithFS f) \/ (exists g, o = WithFuncs g)) opts ->
  autoReload (foldl (fun r opt => opt r) s opts) = autoReload s.
Proof.
  induction opts as [|o opts IH]; intros s Hopts; [done|].
  inversion Hopts as [|? ? Ho Hrest]; subst. simpl. rewrite IH by done.
  by destruct Ho as [[f ->]|[g ->]].
Qed.

(** X2. Reload is off unless an option switches it on: [New] without
    [WithAutoReload] has [autoReload] false, and when [WithAutoReload]
    occurs, the value of its last occurrence is the mode. *)
Theorem New_autoReload fs0 funcs0 before b after :
  Forall (fun o => (exists f, o = WithFS f) \/ (exists g, o = WithFuncs g)) after ->
  autoReload (New fs0 funcs0 after) = false /\
  autoReload (New fs0 funcs0 (before ++ WithAutoReload b :: after)) = b.
Proof.
  intros Hafter. unfold New. split.
  - by rewrite options_autoReload.
  - rewrite foldl_app. simpl. by rewrite options_autoReload.
Qed.


(** One turn of the registration loop. *)
Lemma registerEach_cons lay inc f files (s : State) :
  registerEach lay inc (f :: files) s =
    let p := fresh (dom (heap s)) in
    let s1 := setHeap (<[p := newView lay inc f]> (heap s)) s in
    match ParseFS (templateFuncs s) (Base f) (fsys s)
                  (patternsOf (newView lay inc f)) with
    | Ok t =>
        registerEach lay inc files
          (compiledState p (newView lay inc f) (Some t)
             (<[Base f := p]> (templates s)) s1)
    | Err e =>
        (Val (Some (parseError (newView lay inc f) e)),
         compiledState p (newView lay inc f) None (templates s) s1)
    end.
Proof.
  simpl. unfold bind at 1, alloc. unfold bind at 1.
  rewrite (compileTemplate_run _ _ (newView lay inc f)) by apply lookup_insert_eq.
  simpl. by destruct (ParseFS _ _ _ _).
Qed.


End Soundness.

Lemma New_is_empty_and_sound_witness :
  let s := New Sample.views [] [WithFS (H := Sample.host) Sample.twinViews; WithAutoReload true] in
  templates s = ∅ /\ heap s = ∅ /\ trace s = [] /\ sound s /\
  forall w nm data c,
    fst (Render w nm data c s) = Val (w, NoContent c StatusInternalServerError).
Proof.
  apply (New_is_empty_and_sound (H := Sample.host) Sample.views []
           [WithFS (H := Sample.host) Sample.twinViews; WithAutoReload true]).
  constructor; [left; by eexists|].
  constructor; [right; left; by eexists|constructor].
Defined.

Lemma New_autoReload_witness :
  autoReload (New Sample.views [] [WithFuncs (H := Sample.host) ["getTime"]]) = false /\
  autoReload (New Sample.views []
                ([WithAutoReload false] ++ WithAutoReload true ::
                 [WithFuncs (H := Sample.host) ["getTime"]])) = true.
Proof.
  apply (New_autoReload (H := Sample.host) Sample.views [] [WithAutoReload false]
           true [WithFuncs (H := Sample.host) ["getTime"]]).
  constructor; [right; by eexists|constructor].
Defined.

(** ** Rendering keeps the invariant *)

Section RenderSound.
Context `{H : Host}.

(** The state after a view that is live at [p] was compiled again. *)
Lemma sound_after_recompile (s : State) p v ot reg' :
  wellKeyed s ->
  autoReload s = true ->
  heap s !! p = Some v ->
  reg' = templates s \/ reg' = <[Base (name v) := p]> (templates s) ->
  sound (compiledState p v ot reg' s).
Proof.
  intros Hk Hr Hp Hreg. split; [|simpl; congruence].
  assert (Hlive : forall k q, templates s !! k = Some q ->
            exists v', <[p := setTemplate ot v]> (heap s) !! q = Some v' /\
                       k = Base (name v')).
  { intros k q Hq. destruct (Hk k q Hq) as (v' & Hv' & Hkey).
    destruct (decide (q = p)) as [->|Hne].
    - rewrite lookup_insert_eq. eexists. split; [done|]. simpl. congruence.
    - rewrite lookup_insert_ne by done. by exists v'. }
  intros k q Hq. simpl in Hq. simpl. destruct Hreg as [->| ->]; [by apply Hlive|].
  destruct (decide (k = Base (name v))) as [->|Hne].
  - rewrite lookup_insert_eq in Hq. injection Hq as <-.
    rewrite lookup_insert_eq. by eexists.
  - rewrite lookup_insert_ne in Hq by done. by apply Hlive.
Qed.

Lemma Render_sound (s : State) w nm data c :
  sound s ->
  let r := Render w nm data c s in
  fst r <> Panic /\ sound (snd r) /\ templates (snd r) = templates s /\
  autoReload (snd r) = autoReload s /\ fsys (snd r) = fsys s /\
  templateFuncs (snd r) = templateFuncs s.
Proof.
  intros Hs. pose proof Hs as [Hk Hc]. cbv zeta. rewrite Render_unfold.
  destruct (autoReload s) eqn:Hr.
  - destruct (templates s !! nm) as [p|] eqn:Hn.
    + destruct (Hk nm p Hn) as (v & Hv & Hkey).
      rewrite (lookupTemplate_reload _ nm p v) by done. simpl.
      destruct (ParseFS _ _ _ _) as [t|e]; simpl.
      * rewrite lookup_insert_eq. simpl.
        split; [done|]. split; [|split; [|done]].
        -- apply sound_logged. apply sound_after_recompile; [done..|by right].
        -- rewrite <- Hkey. by apply insert_id.
      * split; [done|]. split; [|done].
        apply sound_logged. apply sound_after_recompile; [done..|by left].
    + rewrite lookupTemplate_missing by done. simpl.
      split; [done|]. split; [by apply sound_logged, sound_logged|done].
  - rewrite lookupTemplate_no_reload by done. simpl.
    destruct (templates s !! nm) as [p|] eqn:Hn; simpl.
    + destruct (Hc eq_refl nm p Hn) as (v & t & Hv & Ht). rewrite Hv, Ht. simpl.
      split; [done|]. split; [by apply sound_logged, sound_logged|done].
    + split; [done|]. split; [by apply sound_logged, sound_logged|done].
Qed.

(** X4. On a renderer that satisfies the invariant, [Render] never panics,
    whatever the name, in both modes; it keeps the invariant, and it leaves
    the registry, the mode, the file collection and the function map as
    they were. *)
Theorem Render_keeps_sound (s : State) w nm data c :
  sound s ->
  fst (Render w nm data c s) <> Panic /\
  sound (snd (Render w nm data c s)) /\
  templates (snd (Render w nm data c s)) = templates s /\
  autoReload (snd (Render w nm data c s)) = autoReload s /\
  fsys (snd (Render w nm data c s)) = fsys s /\
  templateFuncs (snd (Render w nm data c s)) = templateFuncs s.
Proof. intros Hs. by apply Render_sound. Qed.

Lemma RenderToHTMLBlob_unfold (s : State) c code nm data :
  RenderToHTMLBlob c code nm data s =
    match Render "" nm data c s with
    | (Val (buf, None), s1) =>
        (Val (HTMLBlob c code buf), logged [WriteHTMLBlob code buf] s1)
    | (Val (_, Some e), s1) => (Val (Some e), s1)
    | (Panic, s1) => (Panic, s1)
    end.
Proof.
  unfold RenderToHTMLBlob, bind at 1.
  by destruct (Render "" nm data c s) as [[[buf [e|]]|] s1].
Qed.

(** X5. [RenderToHTMLBlob] never panics on a renderer that satisfies the
    invariant, keeps the invariant and leaves the registry as it was. *)
Theorem RenderToHTMLBlob_keeps_sound (s : State) c code nm data :
  sound s ->
  fst (RenderToHTMLBlob c code nm data s) <> Panic /\
  sound (snd (RenderToHTMLBlob c code nm data s)) /\
  templates (snd (RenderToHTMLBlob c code nm data s)) = templates s.
Proof.
  intros Hs.
  destruct (Render_sound s "" nm data c Hs) as (Hnp & Hsound & Ht & _).
  rewrite RenderToHTMLBlob_unfold.
  destruct (Render "" nm data c s) as [[[buf [e|]]|] s1]; simpl in *.
  - split; [done|]. by split.
  - split; [done|]. by split; [apply sound_logged|].
  - by destruct Hnp.
Qed.

End RenderSound.

Lemma sound_sample_cached : sound Sample.cached.
Proof.
  assert (Hreg : templates Sample.cached = <["index.html" := 0%nat]> ∅)
    by reflexivity.
  split; [|intros _]; intros k p Hk; rewrite Hreg in Hk;
    apply lookup_insert_Some in Hk as [[<- <-]|[_ Hk]];
    try (by rewrite lookup_empty in Hk).
  - eexists. split; reflexivity.
  - do 2 eexists. split; reflexivity.
Qed.

Lemma Render_keeps_sound_witness :
  let r := Render "" "index.html" tt Sample.ctx Sample.cached in
  fst r <> Panic /\ sound (snd r) /\ templates (snd r) = templates Sample.cached /\
  autoReload (snd r) = autoReload Sample.cached /\
  fsys (snd r) = fsys Sample.cached /\
  templateFuncs (snd r) = templateFuncs Sample.cached.
Proof.
  exact (Render_keeps_sound Sample.cached "" "index.html" tt Sample.ctx
           sound_sample_cached).
Defined.

Lemma RenderToHTMLBlob_keeps_sound_witness :
  let r := RenderToHTMLBlob Sample.ctx 200 "index.html" tt Sample.cached in
  fst r <> Panic /\ sound (snd r) /\ templates (snd r) = templates Sample.cached.
Proof.
  exact (RenderToHTMLBlob_keeps_sound Sample.cached Sample.ctx 200 "index.html" tt
           sound_sample_cached).
Defined.

(** ** What [Render] and [RenderToHTMLBlob] write *)

Section Responses.
Context `{H : Host}.

(** X6. When the execution of a registered view fails, [Render] returns the
    engine's error itself, keeps in [w] what the engine wrote before the
    failure, logs the error, and writes no response: unlike a failed lookup,
    the failure is left to the caller.  In reload mode the only other trace
    entry is the one of the recompilation. *)
Theorem Render_execution_error (s : State) w nm data c p v t out e :
  templates s !! nm = Some p ->
  heap s !! p = Some v ->
  (if autoReload s
   then ParseFS (templateFuncs s) (Base (name v)) (fsys s) (patternsOf v) = Ok t
   else template v = Some t) ->
  ExecuteTemplate t (execNameOf v) data = (out, Some e) ->
  fst (Render w nm data c s) = Val (w +:+ out, Some e) /\
  trace (snd (Render w nm data c s)) =
    (trace s ++ [DebugCtx "Render"] ++
     (if autoReload s then [Debug "register template"] else []) ++
     [ErrorCtx "failed to execute template" e])%list.
Proof.
  intros Hn Hp Ht He. rewrite Render_unfold.
  destruct (autoReload s) eqn:Hr.
  - rewrite (lookupTemplate_reload _ nm p v) by done. simpl. rewrite Ht. simpl.
    rewrite lookup_insert_eq. simpl.
    change (execNameOf (setTemplate (Some t) v)) with (execNameOf v).
    rewrite He. simpl. split; [done|]. by rewrite <- !app_assoc.
  - rewrite lookupTemplate_no_reload by done. simpl. rewrite Hn, Hp, Ht. simpl.
    rewrite He. simpl. split; [done|]. by rewrite <- !app_assoc.
Qed.

(** X7. [RenderToHTMLBlob] of an unregistered name: [Render] answers with
    the 500 no-content response and returns the result of that write.  When
    that write reports an error, the error is returned and nothing more is
    written; when it reports none, [RenderToHTMLBlob] goes on and writes the
    empty buffer through [HTMLBlob] with the caller's status code, so two
    response writes are made for the one request. *)
Theorem RenderToHTMLBlob_unregistered (s : State) c code nm data :
  templates s !! nm = None ->
  let notFound := [DebugCtx "Render";
                   ErrorCtx "failed to load template" (TemplateNotFound nm);
                   WriteNoContent StatusInternalServerError] in
  RenderToHTMLBlob c code nm data s =
    match NoContent c StatusInternalServerError with
    | Some e => (Val (Some e), logged notFound s)
    | None => (Val (HTMLBlob c code ""),
               logged (notFound ++ [WriteHTMLBlob code ""]) s)
    end.
Proof.
  intros Hn notFound. rewrite RenderToHTMLBlob_unfold, Render_not_found by done.
  destruct (NoContent c StatusInternalServerError); [done|].
  by rewrite logged_logged.
Qed.

(** X8. [RenderToHTMLBlob] of a registered, compiled view without reload:
    when the execution succeeds, the one response write carries exactly the
    bytes the engine wrote, under the caller's status code; when the
    execution fails, the engine's error is returned, no response is written
    and the bytes written before the failure are dropped with the buffer. *)
Theorem RenderToHTMLBlob_registered (s : State) c code nm data p v t :
  autoReload s = false ->
  templates s !! nm = Some p ->
  heap s !! p = Some v ->
  template v = Some t ->
  RenderToHTMLBlob c code nm data s =
    match ExecuteTemplate t (execNameOf v) data with
    | (out, None) =>
        (Val (HTMLBlob c code out),
         logged [DebugCtx "Render"; DebugCtx "Render complete";
                 WriteHTMLBlob code out] s)
    | (_, Some e) =>
        (Val (Some e),
         logged [DebugCtx "Render"; ErrorCtx "failed to execute template" e] s)
    end.
Proof.
  intros Hr Hn Hp Ht.
  rewrite RenderToHTMLBlob_unfold, Render_unfold, lookupTemplate_no_reload by done.
  simpl. rewrite Hn, Hp, Ht. simpl.
  destruct (ExecuteTemplate t (execNameOf v) data) as [out [e|]]; simpl;
    by rewrite !logged_logged.
Qed.

End Responses.

Lemma Render_execution_error_witness :
  let s := Sample.exec (AddWithLayout "layout*.html" ["pages/*.html"]) Sample.empty in
  fst (Render "" "index.html" tt Sample.ctx s)
    = Val ("" +:+ "", Some (External "template is undefined")) /\
  trace (snd (Render "" "index.html" tt Sample.ctx s)) =
    (trace s ++ [DebugCtx "Render"] ++
     (if autoReload s then [Debug "register template"] else []) ++
     [ErrorCtx "failed to execute template" (External "template is undefined")])%list.
Proof.
  intros s.
  pose (t := Sample.mkTmpl "index.html" []
               [("layout.html", "layout"); ("index.html", "index")] : Template).
  apply (Render_execution_error s "" "index.html" tt Sample.ctx 0%nat
           (mkView "layout*.html" "pages/index.html" "" (Some t)) t "");
    reflexivity.
Defined.

Lemma RenderToHTMLBlob_unregistered_witness :
  RenderToHTMLBlob Sample.ctx 200 "missing.html" tt Sample.empty =
    (Val None,
     logged [DebugCtx "Render";
             ErrorCtx "failed to load template" (TemplateNotFound "missing.html");
             WriteNoContent StatusInternalServerError;
             WriteHTMLBlob 200 ""] Sample.empty).
Proof.
  apply (RenderToHTMLBlob_unregistered Sample.empty Sample.ctx 200 "missing.html" tt).
  reflexivity.
Defined.

Lemma RenderToHTMLBlob_registered_witness :
  RenderToHTMLBlob Sample.ctx 200 "index.html" tt Sample.cached =
    (Val None,
     logged [DebugCtx "Render"; DebugCtx "Render complete";
             WriteHTMLBlob 200 "layout"] Sample.cached).
Proof.
  pose (t := Sample.mkTmpl "index.html" []
               [("layout.html", "layout"); ("index.html", "index")] : Template).
  apply (RenderToHTMLBlob_registered Sample.cached Sample.ctx 200 "index.html" tt
           0%nat (mkView "layout.html" "pages/index.html" "" (Some t)) t);
    reflexivity.
Defined.

(** ** Registration that fails *)

Section FailedRegistration.
Context `{H : Host}.

(** X9. When some pattern matches no file and every pattern before it
    matches, each registration function returns an error that wraps the
    "pattern matches no files" error of that pattern and leaves the renderer
    exactly as it was: nothing is registered, not even for the patterns that
    matched, and nothing is logged. *)
Theorem registration_unmatched_pattern lay inc pre p post (s : State) :
  Glob (fsys s) p = Ok [] ->
  Forall (fun q => exists m, Glob (fsys s) q = Ok m /\ m <> []) pre ->
  let patterns := (pre ++ p :: post)%list in
  Add patterns s =
    (Val (Some (Wrapped "failed to read file names using file pattern"
                  (PatternMatchesNoFiles p))), s) /\
  AddWithLayout lay patterns s =
    (Val (Some (Wrapped "failed to list using file pattern"
                  (PatternMatchesNoFiles p))), s) /\
  AddWithLayoutAndIncludes lay inc patterns s =
    (Val (Some (Wrapped "failed to list using file pattern"
                  (PatternMatchesNoFiles p))), s).
Proof.
  intros Hp Hpre patterns.
  assert (Hread : readFileNames (fsys s) patterns = Err (PatternMatchesNoFiles p)).
  { apply readFileNamesFrom_no_match. by exists pre, post. }
  unfold Add, AddWithLayout, AddWithLayoutAndIncludes, bind, gets, ret.
  by rewrite Hread.
Qed.

(** The loop over two lists in a row. *)
Lemma registerEach_app lay inc pre rest : forall (s : State),
  registerEach lay inc (pre ++ rest) s =
    match registerEach lay inc pre s with
    | (Val None, s1) => registerEach lay inc rest s1
    | (Val (Some e), s1) => (Val (Some e), s1)
    | (Panic, s1) => (Panic, s1)
    end.
Proof.
  induction pre as [|f pre IH]; intros s; [reflexivity|].
  change ((f :: pre) ++ rest)%list with (f :: (pre ++ rest))%list.
  rewrite !registerEach_cons. cbv zeta.
  destruct (ParseFS _ _ _ _); [apply IH|reflexivity].
Qed.

(** X10. A page that does not parse stops the registration at that page:
    the error returned is the parse error of that page, the views of the
    pages before it stay registered and untouched, and the pages after it
    are not looked at.  The state is the one the loop had reached, plus the
    unregistered view of the failing page and one log entry. *)
Theorem registration_stops_at_parse_error lay inc patterns pre f post
    (s s1 : State) e :
  readFileNames (fsys s) patterns = Ok (pre ++ f :: post)%list ->
  registerEach lay inc pre s = (Val None, s1) ->
  ParseFS (templateFuncs s) (Base f) (fsys s) (patternsOf (newView lay inc f))
    = Err e ->
  exists s2,
    AddWithLayoutAndIncludes lay inc patterns s
      = (Val (Some (parseError (newView lay inc f) e)), s2) /\
    templates s2 = templates s1 /\
    (forall q, is_Some (heap s1 !! q) -> heap s2 !! q = heap s1 !! q) /\
    trace s2 = (trace s1 ++ [Debug "register template"])%list.
Proof.
  intros Hread Hpre Hparse.
  destruct (registerEach_ok _ _ _ _ _ Hpre) as (_ & Hfs & _ & Hfn).
  unfold AddWithLayoutAndIncludes, bind at 1, gets. rewrite Hread.
  rewrite registerEach_app, Hpre, registerEach_cons. cbv zeta.
  rewrite Hfs, Hfn, Hparse. eexists. split; [reflexivity|].
  split; [done|]. split; [|done].
  intros q [v Hq]. simpl.
  assert (q <> fresh (dom (heap s1))).
  { intros ->. pose proof (is_fresh (dom (heap s1))) as Hfresh.
    apply Hfresh, elem_of_dom. by exists v. }
  by rewrite !lookup_insert_ne.
Qed.

End FailedRegistration.

Lemma registration_unmatched_pattern_witness :
  let patterns := (["pages/*.html"] ++ "nothing/*" :: [])%list in
  Add patterns Sample.empty =
    (Val (Some (Wrapped "failed to read file names using file pattern"
                  (PatternMatchesNoFiles "nothing/*"))), Sample.empty) /\
  AddWithLayout "layout.html" patterns Sample.empty =
    (Val (Some (Wrapped "failed to list using file pattern"
                  (PatternMatchesNoFiles "nothing/*"))), Sample.empty) /\
  AddWithLayoutAndIncludes "layout.html" "includes/*.html" patterns Sample.empty =
    (Val (Some (Wrapped "failed to list using file pattern"
                  (PatternMatchesNoFiles "nothing/*"))), Sample.empty).
Proof.
  apply (registration_unmatched_pattern "layout.html" "includes/*.html"
           ["pages/*.html"] "nothing/*" [] Sample.empty).
  - reflexivity.
  - constructor; [|constructor]. eexists. split; [reflexivity|discriminate].
Defined.

Lemma registration_stops_at_parse_error_witness :
  let s := New Sample.brokenViews [] [] in
  let pre := ["fragments/data.html"; "includes/footer.html"; "includes/header.html"] in
  let s1 := Sample.exec (registerEach "" "" pre) s in
  exists s2,
    AddWithLayoutAndIncludes "" "" ["*/*.html"] s
      = (Val (Some (parseError (newView "" "" "pages/index.html")
                      (External "unclosed action"))), s2) /\
    templates s2 = templates s1 /\
    (forall q, is_Some (heap s1 !! q) -> heap s2 !! q = heap s1 !! q) /\
    trace s2 = (trace s1 ++ [Debug "register template"])%list.
Proof.
  intros s pre s1.
  apply (registration_stops_at_parse_error "" "" ["*/*.html"] pre
           "pages/index.html" [] s s1 (External "unclosed action"));
    vm_compute; reflexivity.
Defined.

(** ** Registration in several calls *)

Section SplitRegistration.
Context `{H : Host}.

Lemma readFileNames_app (fs : FS) ps1 ps2 l :
  readFileNames fs (ps1 ++ ps2) = Ok l <->
  exists l1 l2, readFileNames fs ps1 = Ok l1 /\ readFileNames fs ps2 = Ok l2 /\
                l = (l1 ++ l2)%list.
Proof.
  unfold readFileNames. rewrite readFileNamesFrom_Ok. split.
  - intros (ls & Hls & ->).
    apply Forall2_app_inv_l in Hls as (k1 & k2 & H1 & H2 & ->).
    exists (concat k1), (concat k2). rewrite !readFileNamesFrom_Ok.
    split; [by exists k1|]. split; [by exists k2|]. simpl. apply concat_app.
  - intros (l1 & l2 & H1 & H2 & ->).
    apply readFileNamesFrom_Ok in H1 as (k1 & H1 & ->).
    apply readFileNamesFrom_Ok in H2 as (k2 & H2 & ->).
    exists (k1 ++ k2)%list. split; [by apply Forall2_app|].
    simpl. by rewrite concat_app.
Qed.

Lemma AddWithLayoutAndIncludes_ok lay inc patterns (s s' : State) :
  AddWithLayoutAndIncludes lay inc patterns s = (Val None, s') <->
  exists files, readFileNames (fsys s) patterns = Ok files /\
                registerEach lay inc files s = (Val None, s').
Proof.
  split; [apply registration_ok|].
  intros (files & Hread & Hrun).
  unfold AddWithLayoutAndIncludes, bind, gets. by rewrite Hread.
Qed.

(** X11. One registration call with the patterns [ps1 ++ ps2] reports no
    error and ends in [s2] exactly when the call with [ps1] followed by the
    call with [ps2] does: a successful registration can be split into
    several calls, or several calls merged, without changing the renderer. *)
Theorem registration_splits lay inc ps1 ps2 (s s2 : State) :
  AddWithLayoutAndIncludes lay inc (ps1 ++ ps2) s = (Val None, s2) <->
  exists s1, AddWithLayoutAndIncludes lay inc ps1 s = (Val None, s1) /\
             AddWithLayoutAndIncludes lay inc ps2 s1 = (Val None, s2).
Proof.
  split.
  - intros (files & Hread & Hrun)%AddWithLayoutAndIncludes_ok.
    apply readFileNames_app in Hread as (l1 & l2 & H1 & H2 & ->).
    rewrite registerEach_app in Hrun.
    destruct (registerEach lay inc l1 s) as [[[e|]|] s1] eqn:Hl1;
      [discriminate Hrun| |discriminate Hrun].
    destruct (registerEach_ok _ _ _ _ _ Hl1) as (_ & Hfs & _).
    exists s1. split; apply AddWithLayoutAndIncludes_ok.
    + by exists l1.
    + exists l2. by rewrite Hfs.
  - intros (s1 & (l1 & H1 & Hl1)%AddWithLayoutAndIncludes_ok
               & (l2 & H2 & Hl2)%AddWithLayoutAndIncludes_ok).
    destruct (registerEach_ok _ _ _ _ _ Hl1) as (_ & Hfs & _).
    rewrite Hfs in H2.
    apply AddWithLayoutAndIncludes_ok. exists (l1 ++ l2)%list. split.
    + apply readFileNames_app. by exists l1, l2.
    + by rewrite registerEach_app, Hl1.
Qed.

End SplitRegistration.

(** ** From registration to rendering *)

Section RoundTrip.
Context `{H : Host}.

(** The artifact of a view created by the loop is the parse of its own
    pattern list on the file collection of the renderer. *)
Lemma registerEach_artifacts lay inc files : forall (s s' : State),
  registerEach lay inc files s = (Val None, s') ->
  forall p f t,
    heap s !! p = None ->
    heap s' !! p = Some (mkView lay f inc (Some t)) ->
    ParseFS (templateFuncs s) (Base f) (fsys s) (patternsOf (newView lay inc f))
      = Ok t.
Proof.
  induction files as [|f0 files IH]; intros s s' Hrun p f t Hnone Hsome.
  - injection Hrun as <-. congruence.
  - rewrite registerEach_cons in Hrun. cbv zeta in Hrun.
    destruct (ParseFS (templateFuncs s) (Base f0) (fsys s) _) as [t0|e] eqn:Hparse;
      [|discriminate Hrun].
    set (p0 := fresh (dom (heap s))) in *.
    destruct (decide (p = p0)) as [->|Hne].
    + destruct (registerEach_ok _ _ _ _ _ Hrun)
        as [(ps & _ & _ & Hnew & Hold & _) _].
      assert (Hnotin : p0 ∉ ps).
      { intros Hin. apply Hnew in Hin. simpl in Hin.
        by rewrite lookup_insert_eq in Hin. }
      rewrite (Hold p0 Hnotin) in Hsome. simpl in Hsome.
      rewrite lookup_insert_eq in Hsome. by injection Hsome as <- <-.
    + apply (IH _ _ Hrun p f t); [|done].
      simpl. by rewrite !lookup_insert_ne.
Qed.

(** X12. Register, then render.  After a registration that reports no
    error on a renderer without reload, rendering the base name of a matched
    page [f] that no later matched page shares a base name with executes
    the artifact parsed from [layout?, includes?, f] on the file collection
    as it was at registration, under the base name of the layout if there is
    one and of the page otherwise, and returns what that execution gives. *)
Theorem registered_view_renders lay inc patterns files i f (s s' : State)
    w data c :
  autoReload s = false ->
  readFileNames (fsys s) patterns = Ok files ->
  AddWithLayoutAndIncludes lay inc patterns s = (Val None, s') ->
  lastWithBase files i f ->
  let entry := if bool_decide (lay = "") then Base f else Base lay in
  exists t,
    ParseFS (templateFuncs s) (Base f) (fsys s)
      ((if bool_decide (lay = "") then [] else [lay]) ++
       (if bool_decide (inc = "") then [] else [inc]) ++ [f])%list = Ok t /\
    fst (Render w (Base f) data c s') =
      Val (w +:+ fst (ExecuteTemplate t entry data),
           snd (ExecuteTemplate t entry data)).
Proof.
  intros Hr Hread Hadd Hlast entry.
  apply registration_ok in Hadd as (files' & Hread' & Hrun).
  assert (files' = files) as -> by congruence.
  destruct (registerEach_ok _ _ _ _ _ Hrun)
    as [(ps & Hlen & _ & Hnew & _ & Hviews & Hreg) (_ & Hr' & _)].
  pose proof Hlast as [Hi _].
  destruct (Forall2_lookup_l _ _ _ _ _ Hviews Hi) as (p & Hp & t & Ht).
  assert (Hkey : templates s' !! Base f = Some p).
  { rewrite Hreg. by apply (registryAfter_last _ _ _ i). }
  assert (Hnone : heap s !! p = None).
  { apply Hnew. by eapply list_elem_of_lookup_2. }
  pose proof (registerEach_artifacts _ _ _ _ _ Hrun p f t Hnone Ht) as Hparse.
  exists t. split.
  - rewrite <- Hparse, patternsOf_eq. simpl.
    do 2 f_equal; repeat case_bool_decide; congruence.
  - rewrite Render_unfold, lookupTemplate_no_reload by (simpl; congruence).
    simpl. rewrite Hkey, Ht. simpl.
    replace (execNameOf (mkView lay f inc (Some t))) with entry; [done|].
    unfold execNameOf, entry. simpl. repeat case_bool_decide; congruence.
Qed.

End RoundTrip.

Lemma registered_view_renders_witness :
  let s := Sample.empty in
  let s' := Sample.exec (AddWithLayoutAndIncludes "layout.html" "includes/*.html"
                           ["pages/*.html"]) s in
  exists t,
    ParseFS (templateFuncs s) (Base "pages/index.html") (fsys s)
      ["layout.html"; "includes/*.html"; "pages/index.html"] = Ok t /\
    fst (Render "" (Base "pages/index.html") tt Sample.ctx s') =
      Val ("" +:+ fst (ExecuteTemplate t (Base "layout.html") tt),
           snd (ExecuteTemplate t (Base "layout.html") tt)).
Proof.
  intros s s'.
  apply (registered_view_renders "layout.html" "includes/*.html" ["pages/*.html"]
           ["pages/index.html"] 0%nat "pages/index.html" s s' "" tt Sample.ctx).
  - reflexivity.
  - reflexivity.
  - vm_compute. reflexivity.
  - split; [reflexivity|]. intros [|j] g Hj Hg; [lia|discriminate Hg].
Defined.

(** ** Rendering twice *)

Section Repeat.
Context `{H : Host}.

(** X13. On a renderer that satisfies the invariant, rendering the same
    name with the same data a second time, with the file collection left
    alone, gives the same output and the same error as the first time, in
    both modes: the recompilation of reload mode changes nothing that a
    later recompilation depends on. *)
Theorem Render_repeatable (s : State) w nm data c :
  sound s ->
  fst (Render w nm data c (snd (Render w nm data c s)))
  = fst (Render w nm data c s).
Proof.
  intros [Hk Hc]. rewrite !Render_unfold.
  destruct (autoReload s) eqn:Hr.
  - destruct (templates s !! nm) as [p|] eqn:Hn.
    + destruct (Hk nm p Hn) as (v & Hv & ->).
      rewrite (lookupTemplate_reload (logged _ s) _ p v) by done. simpl.
      destruct (ParseFS (templateFuncs s) (Base (name v)) (fsys s) (patternsOf v))
        as [t|e] eqn:Hparse; simpl.
      * rewrite lookup_insert_eq. simpl.
        rewrite (lookupTemplate_reload _ _ p (setTemplate (Some t) v));
          [|done|simpl; apply lookup_insert_eq|simpl; apply lookup_insert_eq].
        simpl. change (patternsOf (setTemplate (Some t) v)) with (patternsOf v).
        rewrite Hparse. simpl. by rewrite lookup_insert_eq.
      * rewrite (lookupTemplate_reload _ _ p (setTemplate None v));
          [|done|done|simpl; apply lookup_insert_eq].
        simpl. change (patternsOf (setTemplate None v)) with (patternsOf v).
        by rewrite Hparse.
    + rewrite (lookupTemplate_missing (logged _ s)) by done. simpl.
      by rewrite lookupTemplate_missing.
  - rewrite (lookupTemplate_no_reload (logged _ s)) by done. simpl.
    destruct (templates s !! nm) as [p|] eqn:Hn; simpl.
    + destruct (Hc eq_refl nm p Hn) as (v & t & Hv & Ht). rewrite Hv, Ht. simpl.
      rewrite lookupTemplate_no_reload by done. simpl. by rewrite Hn, Hv, Ht.
    + rewrite lookupTemplate_no_reload by done. simpl. by rewrite Hn.
Qed.

End Repeat.

Lemma Render_repeatable_witness :
  fst (Render "" "index.html" tt Sample.ctx
         (snd (Render "" "index.html" tt Sample.ctx Sample.cached)))
  = fst (Render "" "index.html" tt Sample.ctx Sample.cached).
Proof.
  exact (Render_repeatable Sample.cached "" "index.html" tt Sample.ctx
           sound_sample_cached).
Defined.

(** ** One view for every match *)

Section OneViewPerMatch.
Context `{H : Host}.

Lemma matchesOf_readFileNames (s : State) patterns files :
  readFileNames (fsys s) patterns = Ok files <-> matchesOf s patterns files.
Proof. unfold readFileNames, matchesOf. by rewrite readFileNamesFrom_Ok. Qed.

Lemma parsesAs_patternsOf lay inc (s : State) f t :
  parsesAs lay inc s f t <->
  ParseFS (templateFuncs s) (Base f) (fsys s) (patternsOf (newView lay inc f)) = Ok t.
Proof.
  unfold parsesAs. rewrite patternsOf_eq. simpl.
  by repeat case_bool_decide.
Qed.

(** Where an entry of the registry comes from after a registration. *)
Lemma registryAfter_inv files (reg : gmap string loc) ps k p :
  length ps = length files ->
  registryAfter reg files ps !! k = Some p ->
  (reg !! k = Some p /\ forall f, f ∈ files -> Base f <> k) \/
  (exists i f, lastWithBase files i f /\ ps !! i = Some p /\ k = Base f).
Proof.
  intros Hlen Hk.
  destruct (decide (Exists (fun f => Base f = k) files)) as [Hex|Hno].
  - right. apply Exists_exists in Hex as (f & Hf & <-).
    destruct (lastWithBase_exists files f Hf) as (i & g & Hlast & Hb).
    pose proof Hlast as [Hi _]. apply lookup_lt_Some in Hi. rewrite <- Hlen in Hi.
    destruct (lookup_lt_is_Some_2 ps i Hi) as [p' Hp'].
    rewrite <- Hb, (registryAfter_last _ _ _ i g p') in Hk by done.
    injection Hk as ->. by exists i, g.
  - left.
    assert (Hall : forall f, f ∈ files -> Base f <> k).
    { intros f Hf Hb. apply Hno, Exists_exists. by exists f. }
    by rewrite registryAfter_other in Hk.
Qed.

(** The loop runs to its end when every page parses. *)
Lemma registerEach_succeeds lay inc files : forall (s : State),
  Forall (fun f => exists t, parsesAs lay inc s f t) files ->
  exists s', registerEach lay inc files s = (Val None, s').
Proof.
  induction files as [|f files IH]; intros s Hall; [by eexists|].
  inversion Hall as [|? ? [t Ht] Hrest]; subst.
  rewrite registerEach_cons. cbv zeta.
  apply parsesAs_patternsOf in Ht. rewrite Ht. apply IH.
  eapply Forall_impl; [exact Hrest|]. intros g [u Hu]. by exists u.
Qed.

Lemma registerEach_registration lay inc files (s s' : State) :
  registerEach lay inc files s = (Val None, s') ->
  exists ps, registration lay inc files ps s s'.
Proof.
  intros Hrun.
  destruct (registerEach_ok _ _ _ _ _ Hrun)
    as [(ps & Hlen & Hnd & Hnew & Hold & Hviews & Hreg) _].
  exists ps. split; [by repeat split|]. split.
  - apply Forall2_same_length_lookup. split; [done|].
    intros i f p Hf Hp.
    destruct (Forall2_lookup_lr _ _ _ _ _ _ Hviews Hf Hp) as [t Ht].
    exists t. split; [|done]. apply parsesAs_patternsOf.
    apply (registerEach_artifacts _ _ _ _ _ Hrun p); [|done].
    apply Hnew. by eapply list_elem_of_lookup_2.
  - intros k p. rewrite Hreg. split.
    + by apply registryAfter_inv.
    + intros [[Hk Hno]|(i & f & Hlast & Hp & ->)].
      * by rewrite registryAfter_other.
      * by apply (registryAfter_last _ _ _ i).
Qed.

Lemma registration_function (wrap : error -> error) lay inc patterns (s : State) :
  let add := bind (gets fsys) (fun fs =>
               match readFileNames fs patterns with
               | Err err => ret (Some (wrap err))
               | Ok filenames => registerEach lay inc filenames
               end) in
  (forall s', add s = (Val None, s') ->
     exists files ps, matchesOf s patterns files /\
                      registration lay inc files ps s s') /\
  (forall files,
     matchesOf s patterns files ->
     Forall (fun f => exists t, parsesAs lay inc s f t) files ->
     exists s' ps, add s = (Val None, s') /\ registration lay inc files ps s s').
Proof.
  cbv zeta. split.
  - intros s' Hrun. apply registration_ok in Hrun as (files & Hfiles & Hrun).
    apply matchesOf_readFileNames in Hfiles.
    destruct (registerEach_registration _ _ _ _ _ Hrun) as [ps Hps].
    by exists files, ps.
  - intros files Hfiles Hparse. apply matchesOf_readFileNames in Hfiles.
    destruct (registerEach_succeeds _ _ _ _ Hparse) as [s' Hrun].
    destruct (registerEach_registration _ _ _ _ _ Hrun) as [ps Hps].
    exists s', ps. split; [|done].
    unfold bind, gets. by rewrite Hfiles.
Qed.

(** C9 (as amended). [Add] creates one view for every match of its
    patterns, not for every file: the matches are the glob results of the
    patterns in order, so a file matched by two patterns gets two views.
    Each view is new, is named after its match, has empty layout and
    includes and holds the artifact parsed for it; no other view is created
    or changed.  The registry changes only at the base names of the
    matches, where the key of a base name points to the view of the last
    match with that base name, so of several matches with one base name
    only the last stays registered.  [Add] returns nil and does all this
    whenever every pattern matches and every match parses, and only then.
    [AddWithLayout] does the same with the given layout in every view. *)
Theorem Add_one_view_per_match lay patterns (s : State) :
  let outcome lay' (add : M (option error)) :=
    (forall s', add s = (Val None, s') ->
       exists files ps, matchesOf s patterns files /\
                        registration lay' "" files ps s s') /\
    (forall files,
       matchesOf s patterns files ->
       Forall (fun f => exists t, parsesAs lay' "" s f t) files ->
       exists s' ps, add s = (Val None, s') /\
                     registration lay' "" files ps s s') in
  outcome "" (Add patterns) /\ outcome lay (AddWithLayout lay patterns).
Proof.
  cbv zeta. split.
  - apply (registration_function
             (Wrapped "failed to read file names using file pattern")).
  - apply (registration_function (Wrapped "failed to list using file pattern")).
Qed.

End OneViewPerMatch.

Lemma Add_one_view_per_match_witness :
  let s := New Sample.twinViews [] [] in
  (exists s' ps,
     Add ["*/index.html"] s = (Val None, s') /\
     registration "" "" ["admin/index.html"; "public/index.html"] ps s s') /\
  (exists files ps,
     matchesOf Sample.empty ["pages/*.html"] files /\
     registration "layout.html" "" files ps Sample.empty Sample.cached).
Proof.
  intros s. split.
  - apply (proj2 (proj1 (Add_one_view_per_match "" ["*/index.html"] s))).
    + exists [["admin/index.html"; "public/index.html"]].
      split; [|reflexivity]. repeat constructor. discriminate.
    + repeat constructor; eexists; reflexivity.
  - apply (proj1 (proj2 (Add_one_view_per_match "layout.html" ["pages/*.html"]
                           Sample.empty)) Sample.cached).
    vm_compute. reflexivity.
Defined.

(** C9 as stated fails.  Two matched files with one base name leave one
    registered view, and no registered view is the one of the first file;
    one file matched by two patterns gets two views. *)
Lemma Add_not_one_view_per_file :
  let s := New Sample.twinViews [] [] in
  let s' := Sample.exec (Add ["*/index.html"]) s in
  let overlap := ["pages/*.html"; "pages/index.html"] in
  let s2 := Sample.exec (Add overlap) Sample.empty in
  (Sample.run (Add ["*/index.html"]) s = Val None /\
   readFileNames (fsys s) ["*/index.html"]
     = Ok ["admin/index.html"; "public/index.html"] /\
   size (templates s') = 1%nat /\
   ~ (exists k p v, templates s' !! k = Some p /\ heap s' !! p = Some v /\
                    name v = "admin/index.html")) /\
  (Sample.run (Add overlap) Sample.empty = Val None /\
   readFileNames (fsys Sample.empty) overlap
     = Ok ["pages/index.html"; "pages/index.html"] /\
   size (heap s2) = 2%nat /\ size (templates s2) = 1%nat).
Proof.
  intros s s' overlap s2. split; [|by repeat split].
  split; [reflexivity|]. split; [reflexivity|]. split; [reflexivity|].
  intros (k & p & v & Hk & Hp & Hname).
  assert (Hreg : templates s' = <["index.html" := 1%nat]> ∅) by reflexivity.
  rewrite Hreg in Hk.
  apply lookup_insert_Some in Hk as [[_ <-]|[_ Hk]];
    [|by rewrite lookup_empty in Hk].
  vm_compute in Hp. injection Hp as <-. discriminate Hname.
Qed.

(** ** Registration on a renderer built through the package *)

Section Built.
Context `{H : Host}.





End Built.

